(** * Teletype guest side: GuestPortalBinding and PortalStatusBarIndicator

    A shallow embedding of [lib/guest-portal-binding.js] and
    [lib/portal-status-bar-indicator.js], with the properties of the
    portal life cycle stated over it.

    Conventions.
    - A JavaScript object is a record; its identity is a reference
      ([Ref]), drawn from a counter when the source says [new].
    - [this.x] of the binding is the field [x] of [GuestPortalBinding];
      everything the binding talks to (workspace, notification manager,
      emitter, portal, proxies, pane items) lives in [Env]: the workspace
      behind an interface, the other collaborators as the chronological
      [trace] of the calls made on them.
    - A method is a computation in the monad [M]: it threads the state and
      either returns or throws; the state reached at a [throw] is kept, as
      in JavaScript.
    - An [async] method is first given run to completion, every [await]
      resolved in place: this is the method when no other call of the
      binding arrives while it waits.  [replaceActivePaneItem] and
      [setActiveEditorProxy] are then given a second time, cut at the one
      [await] that leaves them half done ([await workspace.open]), so
      that calls can overlap; the cut methods run one after the other
      are the uncut ones.  The status-bar indicator, whose claim is about
      clicks that arrive while an [await] is pending, is modelled with
      explicit suspension points throughout. *)

From stdpp Require Import gmap strings list.

Open Scope string_scope.
Open Scope list_scope.
Open Scope nat_scope.

(** ** Objects *)

Definition Ref := nat.

Record BufferProxy := { bp_ref : Ref }.
Record EditorProxy := { ep_ref : Ref; bufferProxy : BufferProxy }.

Record TextBuffer := { tb_ref : Ref }.
Record TextEditor := { te_ref : Ref; te_buffer : TextBuffer; autoHeight : bool }.

(** [new BufferBinding({buffer, didDispose})]: the binding reads back
    [bufferBinding.buffer]. *)
Record BufferBinding := { bb_ref : Ref; buffer : TextBuffer }.

(** [new EditorBinding({editor, isHost, didDispose})]: the binding reads
    back [editorBinding.editor]. *)
Record EditorBinding := { eb_ref : Ref; editor : TextEditor; isHost : bool }.

Record EmptyPortalPaneItem := { epi_ref : Ref }.

(** What a pane can hold, as far as the binding is concerned. *)
Inductive PaneItem :=
| ItemEmpty (i : EmptyPortalPaneItem)
| ItemEditor (e : TextEditor).

(** The [Disposable] returned by [item.onDidDestroy(callback)]. *)
Record Disposable := { sub_ref : Ref; sub_item : PaneItem }.

Record SiteIdentity := { login : string }.

(** The portal of the client library; [getSiteIdentity] answers
    [undefined] ([None]) for a site it does not know. *)
Record Portal := { portal_ref : Ref; getSiteIdentity : nat → option SiteIdentity }.

#[global] Instance BufferProxy_eq_dec : EqDecision BufferProxy.
Proof. solve_decision. Defined.
#[global] Instance EditorProxy_eq_dec : EqDecision EditorProxy.
Proof. solve_decision. Defined.
#[global] Instance TextBuffer_eq_dec : EqDecision TextBuffer.
Proof. solve_decision. Defined.
#[global] Instance TextEditor_eq_dec : EqDecision TextEditor.
Proof. solve_decision. Defined.
#[global] Instance BufferBinding_eq_dec : EqDecision BufferBinding.
Proof. solve_decision. Defined.
#[global] Instance EditorBinding_eq_dec : EqDecision EditorBinding.
Proof. solve_decision. Defined.
#[global] Instance EmptyPortalPaneItem_eq_dec : EqDecision EmptyPortalPaneItem.
Proof. solve_decision. Defined.
#[global] Instance PaneItem_eq_dec : EqDecision PaneItem.
Proof. solve_decision. Defined.
#[global] Instance Disposable_eq_dec : EqDecision Disposable.
Proof. solve_decision. Defined.

(** ** Errors and notifications *)

(** The values the source can see thrown, or a promise rejected with:
    the client's [Errors.PortalNotFoundError], any other [Error] with its
    [message], the [TypeError] of a property access on [undefined] or
    [null], and [null] or [undefined] themselves ([Nullish]), which are
    no objects: what [Promise.reject()] and [throw null] hand to a
    [catch].  Any other value that is no [Error] (a string, a number)
    reads as an [Error] whose [message] is "undefined". *)
Inductive JsError :=
| PortalNotFoundError (message : string)
| Error (message : string)
| TypeError (message : string)
| Nullish.

(** [error.message]: [None] where the property access itself raises. *)
Definition error_message (e : JsError) : option string :=
  match e with
  | PortalNotFoundError m | Error m | TypeError m => Some m
  | Nullish => None
  end.

Record NotificationOptions := { description : string; dismissable : bool }.

Inductive Notification :=
| addInfo (message : string) (options : option NotificationOptions)
| addError (message : string) (options : option NotificationOptions).

(** ** Calls on the collaborators, in the order they are made *)

Inductive Event :=
| client_joinPortal (portalId : string)
| Portal_setDelegate (p : Portal)
| Portal_dispose (p : Portal)
| notify (n : Notification)
| emit_did_change
| emitDidDispose
| new_TextBuffer (b : TextBuffer)
| new_BufferBinding (bb : BufferBinding)
| BufferBinding_setBufferProxy (bb : BufferBinding) (bp : BufferProxy)
| BufferProxy_setDelegate (bp : BufferProxy) (bb : BufferBinding)
| new_TextEditor (e : TextEditor)
| new_EditorBinding (eb : EditorBinding)
| EditorBinding_setEditorProxy (eb : EditorBinding) (ep : EditorProxy)
| EditorProxy_setDelegate (ep : EditorProxy) (eb : EditorBinding)
| TextEditor_setCursorBufferPosition (e : TextEditor) (row column : nat) (autoscroll : bool)
| EditorBinding_autoscrollToLastHostSelection (eb : EditorBinding)
| PaneItem_onDidDestroy (item : PaneItem) (d : Disposable)
| PaneItem_destroy (item : PaneItem)
| Disposable_dispose (d : Disposable).

(** ** The workspace, at the interface the binding uses *)

Class Workspace (W : Type) := {
  Pane : Type;
  (** [workspace.paneForItem(item)]: [undefined] when no pane holds it *)
  paneForItem : W → PaneItem → option Pane;
  (** [pane.getItems()] *)
  getItems : W → Pane → list PaneItem;
  (** [pane.addItem(item, {index})] *)
  addItem : Pane → PaneItem → Z → W → W;
  (** [pane.removeItem(item)] *)
  removeItem : Pane → PaneItem → W → W;
  (** [workspace.open(item)] *)
  workspace_open : PaneItem → W → W;
}.

(** [Array.prototype.indexOf]: the first position holding [x], or [-1]. *)
Fixpoint indexOf (x : PaneItem) (l : list PaneItem) : Z :=
  match l with
  | [] => -1
  | y :: l' =>
      if decide (y = x) then 0
      else let i := indexOf x l' in if decide (i = -1)%Z then -1 else (i + 1)%Z
  end.

(** ** The binding and its surroundings *)

(** The fields of [this].  [undefined] and [null] are both [None]: the
    source only tests these fields for truthiness or dereferences them,
    and the two behave alike there. *)
Record GuestPortalBinding := {
  portalId : string;
  portal : option Portal;
  activePaneItem : option PaneItem;
  activeEditorBinding : option EditorBinding;
  emptyPortalItem : EmptyPortalPaneItem;
  editorBindingsByEditorProxy : gmap Ref EditorBinding;
  bufferBindingsByBufferProxy : gmap Ref BufferBinding;
  activePaneItemDestroySubscription : option Disposable;
  newActivePaneItem : option PaneItem;
}.

Record Env (W : Type) := {
  workspace : W;
  (** the live [onDidDestroy] observers that call [this.leave] *)
  observers : list Disposable;
  next_ref : Ref;
  trace : list Event;
}.
Arguments workspace {W}.
Arguments observers {W}.
Arguments next_ref {W}.
Arguments trace {W}.

Record State (W : Type) := { this : GuestPortalBinding; env : Env W }.
Arguments this {W}.
Arguments env {W}.
Arguments Build_State {W}.
Arguments Build_Env {W}.

(** ** The monad of methods *)

Inductive Outcome (A : Type) :=
| Return (a : A)
| Throw (e : JsError).
Arguments Return {A}.
Arguments Throw {A}.

Definition M (W A : Type) : Type := State W → Outcome A * State W.

Definition ret {W A} (a : A) : M W A := fun s => (Return a, s).

Definition throw {W A} (e : JsError) : M W A := fun s => (Throw e, s).

Definition bind {W A B} (m : M W A) (k : A → M W B) : M W B :=
  fun s =>
    match m s with
    | (Return a, s') => k a s'
    | (Throw e, s') => (Throw e, s')
    end.

(** [try { m } catch (error) { h error }] *)
Definition try_catch {W A} (m : M W A) (h : JsError → M W A) : M W A :=
  fun s =>
    match m s with
    | (Return a, s') => (Return a, s')
    | (Throw e, s') => h e s'
    end.

#[global] Instance M_ret {W} : MRet (M W) := λ A, ret.
#[global] Instance M_bind {W} : MBind (M W) := λ A B k m, bind m k.

Definition get {W} : M W GuestPortalBinding := fun s => (Return (this s), s).

Definition put {W} (b : GuestPortalBinding) : M W unit :=
  fun s => (Return tt, Build_State b (env s)).

Definition modify_env {W} (f : Env W → Env W) : M W unit :=
  fun s => (Return tt, Build_State (this s) (f (env s))).

Definition get_env {W} : M W (Env W) := fun s => (Return (env s), s).

(** The state in which a method leaves the binding, returned or thrown. *)
Definition exec {W A} (m : M W A) (s : State W) : State W := snd (m s).

Definition outcome {W A} (m : M W A) (s : State W) : Outcome A := fst (m s).

Definition call {W} (e : Event) : M W unit :=
  modify_env (fun v => Build_Env (workspace v) (observers v) (next_ref v) (trace v ++ [e])).

Definition fresh {W} : M W Ref :=
  fun s =>
    let v := env s in
    (Return (next_ref v),
     Build_State (this s) (Build_Env (workspace v) (observers v) (S (next_ref v)) (trace v))).

Definition set_observers {W} (o : list Disposable) : M W unit :=
  modify_env (fun v => Build_Env (workspace v) o (next_ref v) (trace v)).

Definition update_workspace {W} (f : W → W) : M W unit :=
  modify_env (fun v => Build_Env (f (workspace v)) (observers v) (next_ref v) (trace v)).

(** Field assignments [this.x = v]. *)
Definition set_portal (p : option Portal) (b : GuestPortalBinding) :=
  {| portalId := portalId b; portal := p; activePaneItem := activePaneItem b;
     activeEditorBinding := activeEditorBinding b; emptyPortalItem := emptyPortalItem b;
     editorBindingsByEditorProxy := editorBindingsByEditorProxy b;
     bufferBindingsByBufferProxy := bufferBindingsByBufferProxy b;
     activePaneItemDestroySubscription := activePaneItemDestroySubscription b;
     newActivePaneItem := newActivePaneItem b |}.

Definition set_activePaneItem (i : option PaneItem) (b : GuestPortalBinding) :=
  {| portalId := portalId b; portal := portal b; activePaneItem := i;
     activeEditorBinding := activeEditorBinding b; emptyPortalItem := emptyPortalItem b;
     editorBindingsByEditorProxy := editorBindingsByEditorProxy b;
     bufferBindingsByBufferProxy := bufferBindingsByBufferProxy b;
     activePaneItemDestroySubscription := activePaneItemDestroySubscription b;
     newActivePaneItem := newActivePaneItem b |}.

Definition set_activeEditorBinding (e : option EditorBinding) (b : GuestPortalBinding) :=
  {| portalId := portalId b; portal := portal b; activePaneItem := activePaneItem b;
     activeEditorBinding := e; emptyPortalItem := emptyPortalItem b;
     editorBindingsByEditorProxy := editorBindingsByEditorProxy b;
     bufferBindingsByBufferProxy := bufferBindingsByBufferProxy b;
     activePaneItemDestroySubscription := activePaneItemDestroySubscription b;
     newActivePaneItem := newActivePaneItem b |}.

Definition set_editorBindingsByEditorProxy (m : gmap Ref EditorBinding) (b : GuestPortalBinding) :=
  {| portalId := portalId b; portal := portal b; activePaneItem := activePaneItem b;
     activeEditorBinding := activeEditorBinding b; emptyPortalItem := emptyPortalItem b;
     editorBindingsByEditorProxy := m;
     bufferBindingsByBufferProxy := bufferBindingsByBufferProxy b;
     activePaneItemDestroySubscription := activePaneItemDestroySubscription b;
     newActivePaneItem := newActivePaneItem b |}.

Definition set_bufferBindingsByBufferProxy (m : gmap Ref BufferBinding) (b : GuestPortalBinding) :=
  {| portalId := portalId b; portal := portal b; activePaneItem := activePaneItem b;
     activeEditorBinding := activeEditorBinding b; emptyPortalItem := emptyPortalItem b;
     editorBindingsByEditorProxy := editorBindingsByEditorProxy b;
     bufferBindingsByBufferProxy := m;
     activePaneItemDestroySubscription := activePaneItemDestroySubscription b;
     newActivePaneItem := newActivePaneItem b |}.

Definition set_activePaneItemDestroySubscription (d : option Disposable) (b : GuestPortalBinding) :=
  {| portalId := portalId b; portal := portal b; activePaneItem := activePaneItem b;
     activeEditorBinding := activeEditorBinding b; emptyPortalItem := emptyPortalItem b;
     editorBindingsByEditorProxy := editorBindingsByEditorProxy b;
     bufferBindingsByBufferProxy := bufferBindingsByBufferProxy b;
     activePaneItemDestroySubscription := d;
     newActivePaneItem := newActivePaneItem b |}.

Definition set_newActivePaneItem (i : option PaneItem) (b : GuestPortalBinding) :=
  {| portalId := portalId b; portal := portal b; activePaneItem := activePaneItem b;
     activeEditorBinding := activeEditorBinding b; emptyPortalItem := emptyPortalItem b;
     editorBindingsByEditorProxy := editorBindingsByEditorProxy b;
     bufferBindingsByBufferProxy := bufferBindingsByBufferProxy b;
     activePaneItemDestroySubscription := activePaneItemDestroySubscription b;
     newActivePaneItem := i |}.

Definition assign {W} (f : GuestPortalBinding → GuestPortalBinding) : M W unit :=
  fun s => (Return tt, Build_State (f (this s)) (env s)).

(** ** The collaborators' side of the calls *)

Fixpoint for_each {W A} (l : list A) (f : A → M W unit) : M W unit :=
  match l with
  | [] => mret tt
  | x :: l' => f x;; for_each l' f
  end.

(** [disposable.dispose()]: the observer is taken off its item. *)
Definition disposable_dispose {W} (d : Disposable) : M W unit :=
  call (Disposable_dispose d);;
  v ← get_env;
  set_observers (filter (λ o, o ≠ d) (observers v)).

(** [item.onDidDestroy(this.leave.bind(this))] *)
Definition item_onDidDestroy {W} (item : PaneItem) : M W Disposable :=
  r ← fresh;
  let d := {| sub_ref := r; sub_item := item |} in
  call (PaneItem_onDidDestroy item d);;
  v ← get_env;
  set_observers (observers v ++ [d]);;
  mret d.

(** ** lib/guest-portal-binding.js *)

(** [new GuestPortalBinding({client, portalId, workspace,
    notificationManager, didDispose})], in the surroundings [v]. *)
Definition constructor {W} (portalId : string) (v : Env W) : State W :=
  {| this :=
       {| portalId := portalId;
          portal := None;
          activePaneItem := None;
          activeEditorBinding := None;
          emptyPortalItem := {| epi_ref := next_ref v |};
          editorBindingsByEditorProxy := ∅;
          bufferBindingsByBufferProxy := ∅;
          activePaneItemDestroySubscription := None;
          newActivePaneItem := None |};
     env := Build_Env (workspace v) (observers v) (S (next_ref v)) (trace v) |}.

(** What [await this.client.joinPortal(this.portalId)] comes back with:
    the promise resolves with a portal or with [null], or it is rejected
    with whatever was thrown. *)
Inductive JoinResult :=
| JoinResolved (p : option Portal)
| JoinRejected (e : JsError).

Definition joinPortal {W} (r : JoinResult) : M W (option Portal) :=
  b ← get;
  call (client_joinPortal (portalId b));;
  match r with
  | JoinResolved p => mret p
  | JoinRejected e => throw e
  end.

Definition nl : string := String (Ascii.ascii_of_nat 10) EmptyString.

(** [null instanceof Errors.PortalNotFoundError] is false, so a
    rejection with [null] or [undefined] takes the [else] branch, where
    reading [error.message] raises. *)
Definition didFailToJoin {W} (error : JsError) : M W unit :=
  b ← get;
  report ←
    match error with
    | PortalNotFoundError _ =>
        mret ("Portal not found",
              "No portal exists with that ID. Please ask your host to provide you with their current portal ID.")
    | _ =>
        match error_message error with
        | Some m =>
            mret ("Failed to join portal",
                  "Attempting to join portal " +:+ portalId b +:+ " failed with error: <code>"
                    +:+ m +:+ "</code>")
        | None => throw (TypeError "Cannot read property 'message' of null")
        end
    end;
  call (notify (addError report.1
                  (Some {| description := report.2; dismissable := true |}))).

Definition initialize {W} (r : JoinResult) : M W bool :=
  try_catch
    (p ← joinPortal r;
     assign (set_portal p);;
     match p with
     | None => mret false
     | Some pt => call (Portal_setDelegate pt);; mret true
     end)
    (λ error, didFailToJoin error;; mret false).

Definition leave {W} : M W unit :=
  b ← get;
  match portal b with
  | Some p => call (Portal_dispose p)
  | None => throw (TypeError "Cannot read property 'dispose' of undefined")
  end.

(** [item.destroy()]: the observers of the item run once and are gone;
    each of them is [this.leave]. *)
Definition item_destroy {W} (item : PaneItem) : M W unit :=
  call (PaneItem_destroy item);;
  v ← get_env;
  set_observers (filter (λ o, sub_item o ≠ item) (observers v));;
  for_each (filter (λ o, sub_item o = item) (observers v)) (λ _, leave).

Definition dispose {W} : M W unit :=
  b ← get;
  match activePaneItemDestroySubscription b with
  | Some d => disposable_dispose d
  | None => mret tt
  end;;
  match activePaneItem b with
  | Some item => item_destroy item
  | None => mret tt
  end;;
  item_destroy (ItemEmpty (emptyPortalItem b));;
  call emitDidDispose.

Definition site_notification {W} (verb : string) (siteId : nat) : M W unit :=
  b ← get;
  match portal b with
  | None => throw (TypeError "Cannot read property 'getSiteIdentity' of undefined")
  | Some p =>
      match getSiteIdentity p 1 with
      | None => throw (TypeError "Cannot destructure property 'login' of undefined")
      | Some host =>
          match getSiteIdentity p siteId with
          | None => throw (TypeError "Cannot destructure property 'login' of undefined")
          | Some site =>
              call (notify (addInfo ("@" +:+ login site +:+ verb +:+ login host +:+ "'s portal") None));;
              call emit_did_change
          end
      end
  end.

Definition siteDidJoin {W} (siteId : nat) : M W unit :=
  site_notification " has joined @" siteId.

Definition siteDidLeave {W} (siteId : nat) : M W unit :=
  site_notification " has left @" siteId.

Definition portal_closed_by_host : Notification :=
  addInfo "Portal closed"
    (Some {| description := "Your host stopped sharing their editor.";
             dismissable := true |}).

Definition portal_closed_by_lost_connection : Notification :=
  addInfo "Portal closed"
    (Some {| description :=
               "We haven't heard from the host in a while." +:+ nl +:+
               "Once your host is back online, they can share a new portal with you to resume collaborating.";
             dismissable := true |}).

Definition hostDidClosePortal {W} : M W unit :=
  call (notify portal_closed_by_host);;
  assign (set_activePaneItem None).

Definition hostDidLoseConnection {W} : M W unit :=
  call (notify portal_closed_by_lost_connection);;
  assign (set_activePaneItem None).

Definition getActivePaneItem (b : GuestPortalBinding) : option PaneItem :=
  match newActivePaneItem b with
  | Some i => Some i
  | None => activePaneItem b
  end.

(** The [didDispose] callbacks handed to the two kinds of binding. *)
Definition bufferBinding_didDispose {W} (bp : BufferProxy) : M W unit :=
  b ← get;
  assign (set_bufferBindingsByBufferProxy (delete (bp_ref bp) (bufferBindingsByBufferProxy b))).

Definition editorBinding_didDispose {W} (ep : EditorProxy) : M W unit :=
  b ← get;
  assign (set_editorBindingsByEditorProxy (delete (ep_ref ep) (editorBindingsByEditorProxy b))).

(** A call of [setActiveEditorProxy] that waits for [workspace.open]:
    the item it has handed to the workspace, and the editor binding it
    will scroll once it goes on ([None] for the placeholder). *)
Record Pending := { pending_item : PaneItem; pending_binding : option EditorBinding }.

Section Methods.
Context {W : Type} `{Workspace W}.

Definition replaceActivePaneItem (newItem : PaneItem) : M W unit :=
  assign (set_newActivePaneItem (Some newItem));;
  b ← get;
  match activePaneItem b with
  | Some old =>
      v ← get_env;
      match paneForItem (workspace v) old with
      | None => throw (TypeError "Cannot read property 'getItems' of undefined")
      | Some pane =>
          let index := indexOf old (getItems (workspace v) pane) in
          update_workspace (addItem pane newItem index);;
          update_workspace (removeItem pane old)
      end
  | None => update_workspace (workspace_open newItem)
  end;;
  b ← get;
  assign (set_activePaneItem (newActivePaneItem b));;
  match activePaneItemDestroySubscription b with
  | Some d => disposable_dispose d
  | None => mret tt
  end;;
  b ← get;
  match activePaneItem b with
  | None => throw (TypeError "Cannot read property 'onDidDestroy' of null")
  | Some item =>
      d ← item_onDidDestroy item;
      assign (set_activePaneItemDestroySubscription (Some d))
  end;;
  assign (set_newActivePaneItem None).

(** The branch of [setActiveEditorProxy] that finds or builds the
    bindings of [editorProxy]; it yields [editorBinding], whose [editor]
    is the [editor] of the source. *)
Definition resolveEditorBinding (editorProxy : EditorProxy) : M W EditorBinding :=
  let bufferProxy := bufferProxy editorProxy in
  b ← get;
  match editorBindingsByEditorProxy b !! ep_ref editorProxy with
  | Some editorBinding => mret editorBinding
  | None =>
      buffer ←
        match bufferBindingsByBufferProxy b !! bp_ref bufferProxy with
        | Some bufferBinding => mret (buffer bufferBinding)
        | None =>
            r ← fresh;
            let buffer := {| tb_ref := r |} in
            call (new_TextBuffer buffer);;
            r ← fresh;
            let bufferBinding := {| bb_ref := r; buffer := buffer |} in
            call (new_BufferBinding bufferBinding);;
            call (BufferBinding_setBufferProxy bufferBinding bufferProxy);;
            call (BufferProxy_setDelegate bufferProxy bufferBinding);;
            b ← get;
            assign (set_bufferBindingsByBufferProxy
                      (<[bp_ref bufferProxy := bufferBinding]> (bufferBindingsByBufferProxy b)));;
            mret buffer
        end;
      r ← fresh;
      let editor := {| te_ref := r; te_buffer := buffer; autoHeight := false |} in
      call (new_TextEditor editor);;
      r ← fresh;
      let editorBinding := {| eb_ref := r; editor := editor; isHost := false |} in
      call (new_EditorBinding editorBinding);;
      call (EditorBinding_setEditorProxy editorBinding editorProxy);;
      call (EditorProxy_setDelegate editorProxy editorBinding);;
      call (TextEditor_setCursorBufferPosition editor 0 0 false);;
      b ← get;
      assign (set_editorBindingsByEditorProxy
                (<[ep_ref editorProxy := editorBinding]> (editorBindingsByEditorProxy b)));;
      mret editorBinding
  end.

Definition setActiveEditorProxy (editorProxy : option EditorProxy) : M W unit :=
  match editorProxy with
  | None =>
      b ← get;
      replaceActivePaneItem (ItemEmpty (emptyPortalItem b))
  | Some editorProxy =>
      editorBinding ← resolveEditorBinding editorProxy;
      assign (set_activeEditorBinding (Some editorBinding));;
      replaceActivePaneItem (ItemEditor (editor editorBinding));;
      call (EditorBinding_autoscrollToLastHostSelection editorBinding)
  end.

(** *** The same two methods, cut at [await this.workspace.open]

    With an item tracked, [replaceActivePaneItem] runs from its first
    line to its last without giving up control.  With none, it calls
    [workspace.open] and waits; until the promise resolves, other calls
    of the binding can run, and they find [newActivePaneItem] set and
    [activePaneItem] still null.  The workspace holds the opened item
    from the moment the promise resolves.  The [await] of
    [setActiveEditorProxy] on a call that has run to its end leaves no
    field half written; it only puts off
    [autoscrollToLastHostSelection], which is made at once here. *)

(** Lines 163 to 166, after the [if]. *)
Definition replaceActivePaneItem_install : M W unit :=
  b ← get;
  assign (set_activePaneItem (newActivePaneItem b));;
  match activePaneItemDestroySubscription b with
  | Some d => disposable_dispose d
  | None => mret tt
  end;;
  b ← get;
  match activePaneItem b with
  | None => throw (TypeError "Cannot read property 'onDidDestroy' of null")
  | Some item =>
      d ← item_onDidDestroy item;
      assign (set_activePaneItemDestroySubscription (Some d))
  end;;
  assign (set_newActivePaneItem None).

(** The call up to the point where it gives up control: [true] when it
    now waits for [workspace.open], [false] when it has run to its end. *)
Definition replaceActivePaneItem_begin (newItem : PaneItem) : M W bool :=
  assign (set_newActivePaneItem (Some newItem));;
  b ← get;
  match activePaneItem b with
  | Some old =>
      v ← get_env;
      match paneForItem (workspace v) old with
      | None => throw (TypeError "Cannot read property 'getItems' of undefined")
      | Some pane =>
          let index := indexOf old (getItems (workspace v) pane) in
          update_workspace (addItem pane newItem index);;
          update_workspace (removeItem pane old)
      end;;
      replaceActivePaneItem_install;;
      mret false
  | None => mret true
  end.

(** The waiting call goes on: [workspace.open(newItem)] has resolved. *)
Definition replaceActivePaneItem_resume (newItem : PaneItem) : M W unit :=
  update_workspace (workspace_open newItem);;
  replaceActivePaneItem_install.

Definition setActiveEditorProxy_begin (editorProxy : option EditorProxy)
  : M W (option Pending) :=
  match editorProxy with
  | None =>
      b ← get;
      let item := ItemEmpty (emptyPortalItem b) in
      waiting ← replaceActivePaneItem_begin item;
      mret (if waiting : bool
            then Some {| pending_item := item; pending_binding := None |}
            else None)
  | Some editorProxy =>
      editorBinding ← resolveEditorBinding editorProxy;
      assign (set_activeEditorBinding (Some editorBinding));;
      let item := ItemEditor (editor editorBinding) in
      waiting ← replaceActivePaneItem_begin item;
      if waiting : bool
      then mret (Some {| pending_item := item; pending_binding := Some editorBinding |})
      else call (EditorBinding_autoscrollToLastHostSelection editorBinding);;
           mret None
  end.

Definition setActiveEditorProxy_resume (p : Pending) : M W unit :=
  replaceActivePaneItem_resume (pending_item p);;
  match pending_binding p with
  | Some editorBinding => call (EditorBinding_autoscrollToLastHostSelection editorBinding)
  | None => mret tt
  end.

(** A call that meets no other call while it waits. *)
Definition replaceActivePaneItem_alone (newItem : PaneItem) : M W unit :=
  waiting ← replaceActivePaneItem_begin newItem;
  if waiting : bool then replaceActivePaneItem_resume newItem else mret tt.

Definition setActiveEditorProxy_alone (editorProxy : option EditorProxy) : M W unit :=
  p ← setActiveEditorProxy_begin editorProxy;
  match p with
  | Some p => setActiveEditorProxy_resume p
  | None => mret tt
  end.

End Methods.

(** ** A workspace of panes kept as lists

    One implementation of the interface, after Atom's panes: a pane is the
    list of its items, [addItem] leaves a pane that already holds the item
    alone and otherwise splices the item in at the index, [removeItem]
    takes the item out, and [open] shows an item that no pane holds in the
    active pane. *)
Module ListWorkspace.

Record t := { panes : list (list PaneItem); activePane : nat }.

Definition pane_holding (w : t) (item : PaneItem) : option nat :=
  fst <$> list_find (λ items, item ∈ items) (panes w).

Definition items_of (w : t) (p : nat) : list PaneItem :=
  default [] (panes w !! p).

(** [items.splice(index, 0, item)] *)
Definition splice_in (index : Z) (item : PaneItem) (items : list PaneItem) : list PaneItem :=
  let len := Z.of_nat (length items) in
  let start := if decide (index < 0)%Z then Z.max (len + index) 0 else Z.min index len in
  take (Z.to_nat start) items ++ item :: drop (Z.to_nat start) items.

Fixpoint take_out (item : PaneItem) (items : list PaneItem) : list PaneItem :=
  match items with
  | [] => []
  | x :: items' => if decide (x = item) then items' else x :: take_out item items'
  end.

Definition add (p : nat) (item : PaneItem) (index : Z) (w : t) : t :=
  if decide (item ∈ items_of w p) then w
  else {| panes := alter (splice_in index item) p (panes w); activePane := activePane w |}.

Definition remove (p : nat) (item : PaneItem) (w : t) : t :=
  {| panes := alter (take_out item) p (panes w); activePane := activePane w |}.

Definition open (item : PaneItem) (w : t) : t :=
  match pane_holding w item with
  | Some _ => w
  | None =>
      match panes w !! activePane w with
      | Some _ =>
          {| panes := alter (λ items, items ++ [item]) (activePane w) (panes w);
             activePane := activePane w |}
      | None => {| panes := panes w ++ [[item]]; activePane := length (panes w) |}
      end
  end.

#[global] Instance workspace_instance : Workspace t := {|
  Pane := nat;
  paneForItem := pane_holding;
  getItems := items_of;
  addItem := add;
  removeItem := remove;
  workspace_open := open;
|}.

Definition empty : t := {| panes := []; activePane := 0 |}.

(** The surroundings of a freshly started editor window. *)
Definition fresh_env : Env t :=
  Build_Env empty [] 0 [].

End ListWorkspace.

(** ** lib/portal-status-bar-indicator.js

    [handleInitialClick] is [async] and is entered from a click, so a
    second click can arrive while the first run waits at an [await].  A
    run is therefore cut at its three [await]s; what happens between two
    cuts is one step, and the world chooses the order of clicks and of
    settled promises. *)
Module PortalStatusBarIndicator.

(** What [element.onclick] can hold: [this.handleInitialClick.bind(this)]. *)
Inductive Handler := handleInitialClick_bound.

Inductive Call :=
| props_getPortalBindingManager
| portalBindingManager_onDidChange
| props_getAuthenticationProvider
| authenticationProvider_signInUsingSavedToken
| new_PopoverComponent
| tooltipManager_add
| element_click.

#[global] Instance Call_eq_dec : EqDecision Call.
Proof. solve_decision. Defined.

(** The [await] at which a run of [handleInitialClick] is waiting. *)
Inductive Suspended :=
| await_getPortalBindingManager
| await_getAuthenticationProvider
| await_signInUsingSavedToken.

Record Indicator := {
  onclick : option Handler;
  portalBindingManager : option Ref;
  authenticationProvider : option Ref;
  popoverComponent : option Ref;
  tooltip : option Ref;
  (** the module variable [PopoverComponent], [null] until required *)
  PopoverComponent : bool;
  suspended : list Suspended;
  next_object : Ref;
  log : list Call;
}.

(** [new PortalStatusBarIndicator(props)] *)
Definition constructor (PopoverComponent_loaded : bool) : Indicator :=
  {| onclick := Some handleInitialClick_bound;
     portalBindingManager := None;
     authenticationProvider := None;
     popoverComponent := None;
     tooltip := None;
     PopoverComponent := PopoverComponent_loaded;
     suspended := [];
     next_object := 0;
     log := [] |}.

(** [handleInitialClick], from its entry to the first [await]. *)
Definition handleInitialClick (i : Indicator) : Indicator :=
  {| onclick := None;
     portalBindingManager := portalBindingManager i;
     authenticationProvider := authenticationProvider i;
     popoverComponent := popoverComponent i;
     tooltip := tooltip i;
     PopoverComponent := PopoverComponent i;
     suspended := suspended i ++ [await_getPortalBindingManager];
     next_object := next_object i;
     log := log i ++ [props_getPortalBindingManager] |}.

(** A click on the element, whoever makes it: the [onclick] handler
    runs if there is one. *)
Definition click (i : Indicator) : Indicator :=
  let i :=
    {| onclick := onclick i;
       portalBindingManager := portalBindingManager i;
       authenticationProvider := authenticationProvider i;
       popoverComponent := popoverComponent i;
       tooltip := tooltip i;
       PopoverComponent := PopoverComponent i;
       suspended := suspended i;
       next_object := next_object i;
       log := log i ++ [element_click] |} in
  match onclick i with
  | Some handleInitialClick_bound => handleInitialClick i
  | None => i
  end.

(** The run waiting at [at_await] goes on with the value [v] of the
    promise, up to its next [await] or to its end. *)
Definition continue (at_await : Suspended) (v : Ref) (i : Indicator) : Indicator :=
  match at_await with
  | await_getPortalBindingManager =>
      {| onclick := onclick i;
         portalBindingManager := Some v;
         authenticationProvider := authenticationProvider i;
         popoverComponent := popoverComponent i;
         tooltip := tooltip i;
         PopoverComponent := PopoverComponent i;
         suspended := suspended i ++ [await_getAuthenticationProvider];
         next_object := next_object i;
         log := log i ++ [portalBindingManager_onDidChange; props_getAuthenticationProvider] |}
  | await_getAuthenticationProvider =>
      {| onclick := onclick i;
         portalBindingManager := portalBindingManager i;
         authenticationProvider := Some v;
         popoverComponent := popoverComponent i;
         tooltip := tooltip i;
         PopoverComponent := PopoverComponent i;
         suspended := suspended i ++ [await_signInUsingSavedToken];
         next_object := next_object i;
         log := log i ++ [authenticationProvider_signInUsingSavedToken] |}
  | await_signInUsingSavedToken =>
      click
        {| onclick := onclick i;
           portalBindingManager := portalBindingManager i;
           authenticationProvider := authenticationProvider i;
           popoverComponent := Some (next_object i);
           tooltip := Some (S (next_object i));
           PopoverComponent := true;
           suspended := suspended i;
           next_object := S (S (next_object i));
           log := log i ++ [new_PopoverComponent; tooltipManager_add] |}
  end.

(** What the world does to the indicator. *)
Inductive Input :=
| Click
| Resolve (k : nat) (v : Ref)
| Reject (k : nat).

Definition unsuspend (k : nat) (i : Indicator) : Indicator :=
  {| onclick := onclick i;
     portalBindingManager := portalBindingManager i;
     authenticationProvider := authenticationProvider i;
     popoverComponent := popoverComponent i;
     tooltip := tooltip i;
     PopoverComponent := PopoverComponent i;
     suspended := delete k (suspended i);
     next_object := next_object i;
     log := log i |}.

Definition step (i : Indicator) (x : Input) : Indicator :=
  match x with
  | Click => click i
  | Resolve k v =>
      match suspended i !! k with
      | Some at_await => continue at_await v (unsuspend k i)
      | None => i
      end
  | Reject k => unsuspend k i
  end.

Definition run (inputs : list Input) (i : Indicator) : Indicator :=
  fold_left step inputs i.

Definition occurrences (c : Call) (l : list Call) : nat :=
  length (filter (λ x, x = c) l).

(** *** What the properties of the indicator are stated with *)

#[global] Instance Input_eq_dec : EqDecision Input.
Proof. solve_decision. Defined.

(** The calls of a log, the clicks left out. *)
Definition calls (l : list Call) : list Call :=
  filter (λ c, c ≠ element_click) l.

(** How far a run of [handleInitialClick] has come: the calls it has
    made after [n] of its [await]s have resolved. *)
Definition calls_after (n : nat) : list Call :=
  match n with
  | 0 => [props_getPortalBindingManager]
  | 1 => [props_getPortalBindingManager;
          portalBindingManager_onDidChange; props_getAuthenticationProvider]
  | 2 => [props_getPortalBindingManager;
          portalBindingManager_onDidChange; props_getAuthenticationProvider;
          authenticationProvider_signInUsingSavedToken]
  | _ => [props_getPortalBindingManager;
          portalBindingManager_onDidChange; props_getAuthenticationProvider;
          authenticationProvider_signInUsingSavedToken;
          new_PopoverComponent; tooltipManager_add]
  end.

Definition waiting_after (n : nat) : list Suspended :=
  match n with
  | 0 => [await_getPortalBindingManager]
  | 1 => [await_getAuthenticationProvider]
  | 2 => [await_signInUsingSavedToken]
  | _ => []
  end.

(** Either nothing has happened yet, or the handler is gone and a single
    run is somewhere on its way (or has been dropped by a rejection). *)
Definition single_run (i : Indicator) : Prop :=
  match onclick i with
  | Some _ => suspended i = [] ∧ calls (log i) = []
  | None =>
      ∃ n, n ≤ 3 ∧ calls (log i) = calls_after n
           ∧ (suspended i = waiting_after n ∨ suspended i = [])
  end.

End PortalStatusBarIndicator.

(** ** The path of a remote buffer

    The host's derivation of a buffer's URI and the guest's [getPath] and
    [getTitle] overrides are in files that are not at hand
    ([lib/host-portal-binding.js], [lib/buffer-binding.js],
    [lib/editor-binding.js]); what is at hand is the test
    'guest portal file path' and the words of the specification.  The
    two are both written down here, [synthetic_path] from the words and
    [getBufferProxyURI] with [getPath] and [getTitle] from the test, and
    compared.  Paths are kept as their components and rendered with the
    POSIX separator. *)
Module RemotePath.

Definition Path := list string.

Fixpoint join (p : Path) : string :=
  match p with
  | [] => EmptyString
  | [x] => x
  | x :: p' => x +:+ "/" +:+ join p'
  end.

Definition absolute (p : Path) : string := "/" +:+ join p.

Definition basename (p : Path) : string := List.last p EmptyString.

Inductive HostBuffer :=
| Untitled
| Saved (path : Path).

(** The rest of [p] behind [root], when the components of [root] are
    the first components of [p]. *)
Fixpoint strip_prefix (root p : Path) : option Path :=
  match root, p with
  | [], _ => Some p
  | r :: root', x :: p' => if decide (r = x) then strip_prefix root' p' else None
  | _ :: _, [] => None
  end.

(** [project.relativizePath(path)]: the first project root that holds
    the path, with the rest of the path, if there is one. *)
Fixpoint relativizePath (roots : list Path) (p : Path) : option (Path * Path) :=
  match roots with
  | [] => None
  | root :: roots' =>
      match strip_prefix root p with
      | Some rel => Some (root, rel)
      | None => relativizePath roots' p
      end
  end.




(** A buffer's URI: the placeholder, an absolute path, or a path that
    starts at the project's directory. *)
Inductive URI :=
| uri_untitled
| uri_absolute (p : Path)
| uri_relative (p : Path).

Definition uri_string (u : URI) : string :=
  match u with
  | uri_untitled => "untitled"
  | uri_absolute p => absolute p
  | uri_relative p => join p
  end.


(** Modelled from the spec: the host's derivation of the URI, which the
    sources at hand do not contain.  The words of the specification are
    [synthetic_path] above; this definition departs from them where the
    test 'guest portal file path' does: the placeholder for an untitled
    buffer, the whole path of a file outside every project (not its bare
    name), and the name of the project's directory followed by the path
    relative to it for a file inside a project (not the relative path
    alone).  The test has one project root at most; that a root holds a
    path when its components are the first components of the path, and
    that the first such root counts, is [relativizePath] as Atom
    documents it, and no source at hand exercises it. *)
Definition getBufferProxyURI (roots : list Path) (b : HostBuffer) : URI :=
  match b with
  | Untitled => uri_untitled
  | Saved p =>
      match relativizePath roots p with
      | Some (root, rel) => uri_relative (basename root :: rel)
      | None => uri_absolute p
      end
  end.

(** Modelled from the spec: the guest's [getPath] and [getTitle] of a
    remote buffer, absent from the sources at hand: the scheme marker
    before the URI, and, as the test reads the titles, 'Remote Buffer: '
    before the last component of the URI. *)
Definition getPath (u : URI) : string := "remote:" +:+ uri_string u.


End RemotePath.

(** ** lib/guest-portal-binding.js, the remaining methods *)

(** What [activate] does to a pane: [pane.activateItem(item)] and
    [pane.activate()]. *)
Class PaneActivation (W : Type) `{Workspace W} := {
  pane_activateItem : Pane → PaneItem → W → W;
  pane_activate : Pane → W → W;
}.

(** [activate()]: with no item at hand [pane && activePaneItem] is false
    whatever [paneForItem(null)] has answered. *)
Definition activate {W} `{PaneActivation W} : M W unit :=
  b ← get;
  match getActivePaneItem b with
  | None => mret tt
  | Some activePaneItem =>
      v ← get_env;
      match paneForItem (workspace v) activePaneItem with
      | None => mret tt
      | Some pane =>
          update_workspace (pane_activateItem pane activePaneItem);;
          update_workspace (pane_activate pane)
      end
  end.

(** In the list workspace the item to activate is in the pane already,
    and activating the pane makes it the active one. *)
#[global] Instance ListWorkspace_activation : PaneActivation ListWorkspace.t := {|
  pane_activateItem := λ _ _ w, w;
  pane_activate := λ p w,
    {| ListWorkspace.panes := ListWorkspace.panes w; ListWorkspace.activePane := p |};
|}.

(** Which editor bindings follow the host's cursor. *)
Definition Following := EditorBinding → bool.

(** Modelled from the spec: [EditorBinding.isFollowingHostCursor], of
    [lib/editor-binding.js], which is not at hand: a pure query of the
    flag. *)
Definition isFollowingHostCursor (eb : EditorBinding) (f : Following) : bool := f eb.

(** Modelled from the spec: [EditorBinding.setFollowHostCursor], of
    [lib/editor-binding.js], which is not at hand: it sets the flag of
    this editor binding and of no other. *)
Definition setFollowHostCursor (eb : EditorBinding) (following : bool) (f : Following)
  : Following :=
  λ x, if decide (x = eb) then following else f x.

(** [toggleFollowHostCursorOnActiveEditorProxy()] *)
Definition toggleFollowHostCursorOnActiveEditorProxy
    (b : GuestPortalBinding) (f : Following) : Outcome Following :=
  match activeEditorBinding b with
  | None => Throw (TypeError "Cannot read property 'isFollowingHostCursor' of null")
  | Some eb =>
      let isFollowing := isFollowingHostCursor eb f in
      Return (setFollowHostCursor eb (negb isFollowing) f)
  end.

(** Everything that can happen to a binding: the calls of the package
    and of the portal on its methods, the [didDispose] callbacks of its
    buffer and editor bindings, and the destruction of a pane item by the
    workspace. *)
Inductive Method :=
| call_initialize (r : JoinResult)
| call_setActiveEditorProxy (editorProxy : option EditorProxy)
| call_siteDidJoin (siteId : nat)
| call_siteDidLeave (siteId : nat)
| call_hostDidClosePortal
| call_hostDidLoseConnection
| call_leave
| call_dispose
| call_bufferBinding_didDispose (bp : BufferProxy)
| call_editorBinding_didDispose (ep : EditorProxy)
| call_item_destroy (item : PaneItem).

Definition perform {W} `{Workspace W} (m : Method) (s : State W) : State W :=
  match m with
  | call_initialize r => exec (initialize r) s
  | call_setActiveEditorProxy a => exec (setActiveEditorProxy a) s
  | call_siteDidJoin siteId => exec (siteDidJoin siteId) s
  | call_siteDidLeave siteId => exec (siteDidLeave siteId) s
  | call_hostDidClosePortal => exec hostDidClosePortal s
  | call_hostDidLoseConnection => exec hostDidLoseConnection s
  | call_leave => exec leave s
  | call_dispose => exec dispose s
  | call_bufferBinding_didDispose bp => exec (bufferBinding_didDispose bp) s
  | call_editorBinding_didDispose ep => exec (editorBinding_didDispose ep) s
  | call_item_destroy item => exec (item_destroy item) s
  end.

Definition history {W} `{Workspace W} (ms : list Method) (s : State W) : State W :=
  fold_left (λ s m, perform m s) ms s.

(** ** lib/portal-status-bar-indicator.js, the remaining methods *)

Module IndicatorElement.
Import PortalStatusBarIndicator.

(** The [props] that [buildElement] reads, as truth values. *)
Record Props := { isClientOutdated : bool; initializationError : bool }.

(** An element: its [classList] and the class lists of its children. *)
Record Element := { classList : gset string; children : list (gset string) }.

(** [buildElement(props)] *)
Definition buildElement (props : Props) : Element :=
  let anchor : gset string := {["PortalStatusBarIndicator"; "inline-block"]} in
  let anchor := if isClientOutdated props then anchor ∪ {["outdated"]} else anchor in
  let anchor := if initializationError props then anchor ∪ {["initialization-error"]} else anchor in
  let icon : gset string := {["icon"; "icon-radio-tower"]} in
  {| classList := anchor; children := [icon] |}.

(** [updatePortalStatus()], with what [hasActivePortals()] resolves to. *)
Definition updatePortalStatus (transmitting : bool) (i : Indicator) (e : Element)
  : Outcome unit * Element :=
  match portalBindingManager i with
  | None => (Throw (TypeError "Cannot read property 'hasActivePortals' of undefined"), e)
  | Some _ =>
      (Return tt,
       {| classList :=
            if transmitting then classList e ∪ {["transmitting"]}
            else classList e ∖ {["transmitting"]};
          children := children e |})
  end.

(** [isPopoverVisible()], with [document.contains] as a predicate on the
    popover components. *)
Definition isPopoverVisible (document_contains : Ref → bool) (i : Indicator) : Outcome bool :=
  match popoverComponent i with
  | None => Throw (TypeError "Cannot read property 'element' of undefined")
  | Some c => Return (document_contains c)
  end.

(** [showPopover()] *)
Definition showPopover (document_contains : Ref → bool) (i : Indicator)
  : Outcome unit * Indicator :=
  match isPopoverVisible document_contains i with
  | Throw e => (Throw e, i)
  | Return true => (Return tt, i)
  | Return false => (Return tt, click i)
  end.

(** The statuses arrive one after the other. *)
Definition statuses (l : list bool) (i : Indicator) (e : Element) : Element :=
  fold_left (λ e transmitting, snd (updatePortalStatus transmitting i e)) l e.

End IndicatorElement.

(** * What the properties are stated with *)

(** ** Concrete bindings to run the methods on *)

(** A binding in a fresh window. *)
Definition fresh_binding : State ListWorkspace.t :=
  constructor "portal-1" ListWorkspace.fresh_env.

(** A binding whose placeholder is on display. *)
Definition placeholder_shown : State ListWorkspace.t :=
  exec (setActiveEditorProxy None) fresh_binding.

Definition some_portal : Portal :=
  {| portal_ref := 7;
     getSiteIdentity := λ siteId,
       match siteId with
       | 1 => Some {| login := "host" |}
       | 2 => Some {| login := "guest" |}
       | _ => None
       end |}.

(** A binding that has joined [some_portal]. *)
Definition joined_binding : State ListWorkspace.t :=
  exec (initialize (JoinResolved (Some some_portal))) fresh_binding.

(** Two editor proxies on the same buffer proxy. *)
Definition editor_proxy_1 : EditorProxy :=
  {| ep_ref := 11; bufferProxy := {| bp_ref := 21 |} |}.

Definition editor_proxy_2 : EditorProxy :=
  {| ep_ref := 12; bufferProxy := {| bp_ref := 21 |} |}.

(** ** Reading a trace *)

Definition is_notification (e : Event) : bool :=
  match e with notify _ => true | _ => false end.

Definition is_info_or_did_change (e : Event) : bool :=
  match e with
  | notify (addInfo _ _) | emit_did_change => true
  | _ => false
  end.

Definition is_teardown (e : Event) : bool :=
  match e with
  | PaneItem_destroy _ | Disposable_dispose _ | emitDidDispose | Portal_dispose _ => true
  | _ => false
  end.

Definition is_emitDidDispose (e : Event) : bool :=
  match e with emitDidDispose => true | _ => false end.

Definition is_PaneItem_destroy (e : Event) : bool :=
  match e with PaneItem_destroy _ => true | _ => false end.

Definition is_construction (e : Event) : bool :=
  match e with
  | new_TextBuffer _ | new_BufferBinding _ | new_TextEditor _ | new_EditorBinding _ => true
  | _ => false
  end.

Definition is_new_TextBuffer (e : Event) : bool :=
  match e with new_TextBuffer _ => true | _ => false end.
Definition is_new_BufferBinding (e : Event) : bool :=
  match e with new_BufferBinding _ => true | _ => false end.
Definition is_new_TextEditor (e : Event) : bool :=
  match e with new_TextEditor _ => true | _ => false end.
Definition is_new_EditorBinding (e : Event) : bool :=
  match e with new_EditorBinding _ => true | _ => false end.

Definition count (p : Event → bool) (l : list Event) : nat :=
  length (filter (λ e, p e = true) l).

Definition with_trace {W} (v : Env W) (t : list Event) : Env W :=
  Build_Env (workspace v) (observers v) (next_ref v) t.

(** ** Joining *)

(** A rejection the [catch] of [initialize] can report: an object with
    a [message]. *)
Definition is_error_object (error : JsError) : Prop := error ≠ Nullish.

(** The notification of a failed join; there is none when the rejection
    is no object. *)
Definition join_failure_notification (b : GuestPortalBinding) (error : JsError)
  : option Notification :=
  match error with
  | PortalNotFoundError _ =>
      Some (addError "Portal not found"
              (Some {| description :=
                         "No portal exists with that ID. Please ask your host to provide you with their current portal ID.";
                       dismissable := true |}))
  | Error m | TypeError m =>
      Some (addError "Failed to join portal"
              (Some {| description :=
                         "Attempting to join portal " +:+ portalId b +:+ " failed with error: <code>"
                           +:+ m +:+ "</code>";
                       dismissable := true |}))
  | Nullish => None
  end.

(** What [initialize] adds to the trace, by the way [joinPortal] ends. *)
Definition initialize_calls (b : GuestPortalBinding) (r : JoinResult) : list Event :=
  client_joinPortal (portalId b) ::
  match r with
  | JoinResolved None => []
  | JoinResolved (Some p) => [Portal_setDelegate p]
  | JoinRejected error =>
      match join_failure_notification b error with
      | Some n => [notify n]
      | None => []
      end
  end.

(** How [initialize] ends, by the way [joinPortal] ends. *)
Definition initialize_outcome (r : JoinResult) : Outcome bool :=
  match r with
  | JoinResolved (Some _) => Return true
  | JoinResolved None => Return false
  | JoinRejected Nullish => Throw (TypeError "Cannot read property 'message' of null")
  | JoinRejected _ => Return false
  end.

(** ** Replacing the displayed item *)

(** Every live destroy observer is the one the binding keeps in
    [activePaneItemDestroySubscription]. *)
Definition observers_tracked {W} (s : State W) : Prop :=
  ∀ o, o ∈ observers (env s) → activePaneItemDestroySubscription (this s) = Some o.

(** The item the binding tracks, if any, is held by a pane. *)
Definition active_item_in_pane {W} `{Workspace W} (s : State W) : Prop :=
  ∀ old, activePaneItem (this s) = Some old →
         is_Some (paneForItem (workspace (env s)) old).

(** The workspace after [replaceActivePaneItem(item)] has gone through. *)
Definition replaced_workspace {W} `{Workspace W}
    (b : GuestPortalBinding) (w : W) (item : PaneItem) : option W :=
  match activePaneItem b with
  | Some old =>
      match paneForItem w old with
      | Some pane =>
          Some (removeItem pane old (addItem pane item (indexOf old (getItems w pane)) w))
      | None => None
      end
  | None => Some (workspace_open item w)
  end.

Definition old_subscription_calls (b : GuestPortalBinding) : list Event :=
  match activePaneItemDestroySubscription b with
  | Some d => [Disposable_dispose d]
  | None => []
  end.

Definition old_subscription_removed (b : GuestPortalBinding) (o : list Disposable)
  : list Disposable :=
  match activePaneItemDestroySubscription b with
  | Some d => filter (λ x, x ≠ d) o
  | None => o
  end.

(** ** Activating an editor proxy *)

(** [resolveEditorBinding] as a function of the binding and of the next
    free reference: the editor binding, the binding afterwards, the next
    free reference afterwards, and the calls made. *)
Definition resolve (b : GuestPortalBinding) (n : Ref) (ep : EditorProxy)
  : EditorBinding * GuestPortalBinding * Ref * list Event :=
  match editorBindingsByEditorProxy b !! ep_ref ep with
  | Some eb => (eb, b, n, [])
  | None =>
      let '(buf, b1, n1, calls1) :=
        match bufferBindingsByBufferProxy b !! bp_ref (bufferProxy ep) with
        | Some bb => (buffer bb, b, n, [])
        | None =>
            let buf := {| tb_ref := n |} in
            let bb := {| bb_ref := S n; buffer := buf |} in
            (buf,
             set_bufferBindingsByBufferProxy
               (<[bp_ref (bufferProxy ep) := bb]> (bufferBindingsByBufferProxy b)) b,
             S (S n),
             [new_TextBuffer buf; new_BufferBinding bb;
              BufferBinding_setBufferProxy bb (bufferProxy ep);
              BufferProxy_setDelegate (bufferProxy ep) bb])
        end in
      let ed := {| te_ref := n1; te_buffer := buf; autoHeight := false |} in
      let eb := {| eb_ref := S n1; editor := ed; isHost := false |} in
      (eb,
       set_editorBindingsByEditorProxy
         (<[ep_ref ep := eb]> (editorBindingsByEditorProxy b1)) b1,
       S (S n1),
       calls1 ++ [new_TextEditor ed; new_EditorBinding eb;
                  EditorBinding_setEditorProxy eb ep;
                  EditorProxy_setDelegate ep eb;
                  TextEditor_setCursorBufferPosition ed 0 0 false])
  end.

(** The delegate calls [setActiveEditorProxy] one after the other; a call
    that raises leaves the binding in the state it reached. *)
Definition activations {W} `{Workspace W}
    (calls : list (option EditorProxy)) (s : State W) : State W :=
  fold_left (λ s a, exec (setActiveEditorProxy a) s) calls s.

(** ** Disposing *)

(** The calls one run of [dispose] makes. *)
Definition dispose_calls (b : GuestPortalBinding) : list Event :=
  match activePaneItemDestroySubscription b with
  | Some d => [Disposable_dispose d]
  | None => []
  end ++
  match activePaneItem b with
  | Some item => [PaneItem_destroy item]
  | None => []
  end ++
  [PaneItem_destroy (ItemEmpty (emptyPortalItem b)); emitDidDispose].

(** ** Sequences of calls *)

(** The last non-null proxy among the activations. *)
Definition last_proxy (calls : list (option EditorProxy)) : option EditorProxy :=
  last (omap id calls).

(** An editor proxy is one object: the activations never show two
    different proxies under one reference. *)
Definition one_object_per_reference (calls : list (option EditorProxy)) : Prop :=
  ∀ ep1 ep2, Some ep1 ∈ calls → Some ep2 ∈ calls → ep_ref ep1 = ep_ref ep2 → ep1 = ep2.

(** The references of the bindings, editors and buffers in the maps are
    below the next free one. *)
Definition references_allocated {W} (s : State W) : Prop :=
  (∀ k eb, editorBindingsByEditorProxy (this s) !! k = Some eb →
           te_ref (editor eb) < next_ref (env s) ∧ eb_ref eb < next_ref (env s))
  ∧ (∀ k bb, bufferBindingsByBufferProxy (this s) !! k = Some bb →
             tb_ref (buffer bb) < next_ref (env s) ∧ bb_ref bb < next_ref (env s)).

(** Different keys hold different editors, and different buffers. *)
Definition views_distinct {W} (s : State W) : Prop :=
  (∀ k1 k2 eb1 eb2,
     editorBindingsByEditorProxy (this s) !! k1 = Some eb1 →
     editorBindingsByEditorProxy (this s) !! k2 = Some eb2 →
     te_ref (editor eb1) = te_ref (editor eb2) → k1 = k2)
  ∧ (∀ k1 k2 bb1 bb2,
       bufferBindingsByBufferProxy (this s) !! k1 = Some bb1 →
       bufferBindingsByBufferProxy (this s) !! k2 = Some bb2 →
       tb_ref (buffer bb1) = tb_ref (buffer bb2) → k1 = k2).

(** A step that adds nothing: the maps lose entries at most, the next
    free reference and the stored subscription stay, and observers only
    go away. *)
Definition settled {W} (s s' : State W) : Prop :=
  editorBindingsByEditorProxy (this s') ⊆ editorBindingsByEditorProxy (this s)
  ∧ bufferBindingsByBufferProxy (this s') ⊆ bufferBindingsByBufferProxy (this s)
  ∧ next_ref (env s') = next_ref (env s)
  ∧ activePaneItemDestroySubscription (this s') = activePaneItemDestroySubscription (this s)
  ∧ observers (env s') `sublist_of` observers (env s).

(** No destroy observer is live, or exactly one, the stored one. *)
Definition one_observer {W} (s : State W) : Prop :=
  observers (env s) = []
  ∨ ∃ d, observers (env s) = [d] ∧ activePaneItemDestroySubscription (this s) = Some d.

(** ** The stages of the indicator *)

Module IndicatorStages.
Import PortalStatusBarIndicator.

(** [single_run] with the fields: the portal binding manager is there
    from the first resolved [await] on, the popover component and the
    tooltip once the run has come to its end. *)
Definition staged (i : Indicator) : Prop :=
  match onclick i with
  | Some _ =>
      suspended i = [] ∧ calls (log i) = []
      ∧ popoverComponent i = None ∧ tooltip i = None ∧ portalBindingManager i = None
  | None =>
      ∃ n, n ≤ 3 ∧ calls (log i) = calls_after n
           ∧ (suspended i = waiting_after n ∨ suspended i = [])
           ∧ (is_Some (popoverComponent i) ↔ n = 3)
           ∧ (is_Some (tooltip i) ↔ n = 3)
           ∧ (is_Some (portalBindingManager i) ↔ 1 ≤ n)
  end.

(** An indicator whose first click has been answered by a rejection. *)
Definition rejected_indicator : Indicator :=
  run [Click; Reject 0] (constructor false).

(** An indicator whose portal binding manager has arrived. *)
Definition managed_indicator : Indicator :=
  run [Click; Resolve 0 1] (constructor false).

End IndicatorStages.

(** ** More concrete bindings *)

(** A binding that has joined [some_portal] and shows its placeholder. *)
Definition joined_placeholder : State ListWorkspace.t :=
  exec (setActiveEditorProxy None) joined_binding.

(** A binding on which [editor_proxy_1] has been activated. *)
Definition editor_shown : State ListWorkspace.t :=
  exec (setActiveEditorProxy (Some editor_proxy_1)) fresh_binding.

(** ** Accounting for the destroy subscriptions *)

Definition is_PaneItem_onDidDestroy (e : Event) : bool :=
  match e with PaneItem_onDidDestroy _ _ => true | _ => false end.

Definition is_Disposable_dispose (e : Event) : bool :=
  match e with Disposable_dispose _ => true | _ => false end.

(** Destroying an item, disposing the portal, firing [didDispose]. *)
Definition is_destruction (e : Event) : bool :=
  match e with
  | PaneItem_destroy _ | Portal_dispose _ | emitDidDispose => true
  | _ => false
  end.

(** The stored subscription, if any, is the one live observer. *)
Definition subscription_live {W} (s : State W) : Prop :=
  observers (env s) =
    match activePaneItemDestroySubscription (this s) with
    | Some d => [d]
    | None => []
    end.

(** * Properties *)

(** Unfolding the monad and the small state operations. *)
Ltac run_M :=
  cbv [exec outcome try_catch mbind M_bind bind mret M_ret ret throw get put assign call
       modify_env get_env fresh set_observers update_workspace];
  cbn [fst snd this env workspace observers next_ref trace].

Lemma count_app p l1 l2 : count p (l1 ++ l2) = count p l1 + count p l2.
Proof. unfold count. by rewrite filter_app, length_app. Qed.

Lemma count_nil p : count p [] = 0.
Proof. reflexivity. Qed.

(** ** The methods on small inputs *)

Example activating_a_proxy_builds_its_bindings :
  trace (env (exec (setActiveEditorProxy (Some editor_proxy_1)) fresh_binding)) =
    let buf := {| tb_ref := 1 |} in
    let bb := {| bb_ref := 2; buffer := buf |} in
    let ed := {| te_ref := 3; te_buffer := buf; autoHeight := false |} in
    let eb := {| eb_ref := 4; editor := ed; isHost := false |} in
    [new_TextBuffer buf; new_BufferBinding bb;
     BufferBinding_setBufferProxy bb {| bp_ref := 21 |};
     BufferProxy_setDelegate {| bp_ref := 21 |} bb;
     new_TextEditor ed; new_EditorBinding eb;
     EditorBinding_setEditorProxy eb editor_proxy_1;
     EditorProxy_setDelegate editor_proxy_1 eb;
     TextEditor_setCursorBufferPosition ed 0 0 false;
     PaneItem_onDidDestroy (ItemEditor ed) {| sub_ref := 5; sub_item := ItemEditor ed |};
     EditorBinding_autoscrollToLastHostSelection eb].
Proof. by vm_compute. Qed.

Example placeholder_then_editor_swaps_in_place :
  ListWorkspace.panes
    (workspace (env (activations [None; Some editor_proxy_1] fresh_binding)))
  = [[ItemEditor {| te_ref := 4; te_buffer := {| tb_ref := 2 |}; autoHeight := false |}]].
Proof. by vm_compute. Qed.

Example second_proxy_shares_the_buffer :
  let s := activations [Some editor_proxy_1; Some editor_proxy_2] fresh_binding in
  size (editorBindingsByEditorProxy (this s)) = 2
  ∧ size (bufferBindingsByBufferProxy (this s)) = 1
  ∧ (te_buffer ∘ editor <$> editorBindingsByEditorProxy (this s) !! 11)
    = (te_buffer ∘ editor <$> editorBindingsByEditorProxy (this s) !! 12).
Proof. repeat split; by vm_compute. Qed.

Example guest_joins_and_site_joins :
  trace (env (exec (siteDidJoin 2) joined_binding)) =
    [client_joinPortal "portal-1"; Portal_setDelegate some_portal;
     notify (addInfo "@guest has joined @host's portal" None); emit_did_change].
Proof. reflexivity. Qed.

Example portal_not_found_is_reported :
  initialize (JoinRejected (PortalNotFoundError "not found")) fresh_binding =
    (Return false,
     Build_State (this fresh_binding)
       (with_trace (env fresh_binding)
          [client_joinPortal "portal-1";
           notify (addError "Portal not found"
                     (Some {| description :=
                                "No portal exists with that ID. Please ask your host to provide you with their current portal ID.";
                              dismissable := true |}))])).
Proof. reflexivity. Qed.

Example closing_the_item_leaves_the_portal :
  let s := exec (setActiveEditorProxy None) joined_binding in
  count is_teardown (trace (env s)) = 0
  ∧ filter (λ e, is_teardown e = true)
      (trace (env (exec (item_destroy (ItemEmpty (emptyPortalItem (this s)))) s)))
    = [PaneItem_destroy (ItemEmpty (emptyPortalItem (this s))); Portal_dispose some_portal].
Proof. split; reflexivity. Qed.

Example indicator_clicked_twice_while_waiting :
  let i := PortalStatusBarIndicator.run
             [PortalStatusBarIndicator.Click; PortalStatusBarIndicator.Click;
              PortalStatusBarIndicator.Resolve 0 1; PortalStatusBarIndicator.Click;
              PortalStatusBarIndicator.Resolve 0 2; PortalStatusBarIndicator.Resolve 0 3]
             (PortalStatusBarIndicator.constructor false) in
  PortalStatusBarIndicator.calls (PortalStatusBarIndicator.log i)
  = PortalStatusBarIndicator.calls_after 3
  ∧ PortalStatusBarIndicator.onclick i = None
  ∧ PortalStatusBarIndicator.suspended i = [].
Proof. repeat split; by vm_compute. Qed.

Example project_file_path :
  RemotePath.getPath
    (RemotePath.getBufferProxyURI [["home"; "me"; "some-project"]]
       (RemotePath.Saved ["home"; "me"; "some-project"; "sub-dir"; "file.js"]))
  = "remote:some-project/sub-dir/file.js".
Proof. reflexivity. Qed.

(** ** Joining: [initialize] and [didFailToJoin] *)

Section Joining.
Context {W : Type}.
Implicit Types s : State W.

Lemma initialize_unfold s r :
  initialize r s =
    (initialize_outcome r,
     Build_State
       (match r with
        | JoinResolved p => set_portal p (this s)
        | JoinRejected _ => this s
        end)
       (Build_Env (workspace (env s)) (observers (env s)) (next_ref (env s))
          (trace (env s) ++ initialize_calls (this s) r))).
Proof.
  destruct s as [b v].
  destruct r as [[p|]|[m|m|m|]];
    unfold initialize, initialize_calls, joinPortal, didFailToJoin, error_message,
      join_failure_notification, initialize_outcome;
    run_M; rewrite <- ?app_assoc; reflexivity.
Qed.

(** How [initialize] ends when the promise of [joinPortal] is rejected
    with [null] or [undefined]: the [catch] block itself raises, on
    [error.message]; nothing is notified and nothing is stored. *)
Lemma initialize_raises_on_nullish_rejection s :
  initialize (JoinRejected Nullish) s =
    (Throw (TypeError "Cannot read property 'message' of null"),
     Build_State (this s)
       (with_trace (env s) (trace (env s) ++ [client_joinPortal (portalId (this s))]))).
Proof. by rewrite initialize_unfold. Qed.

(** C3, as the code has it.  When [joinPortal] throws an error object
    (anything with a [message]: a [PortalNotFoundError], another
    [Error]), [initialize] returns [false] without raising, adds exactly
    one dismissable error notification and leaves every field of the
    binding as it was.  When [joinPortal] yields a null portal, it
    returns [false] and notifies nobody; the only field written is
    [portal], with that null.  In neither case is a delegate registered,
    and however [joinPortal] ends, the two maps, the tracked pane item
    and the workspace stay as they were.  On success it stores the
    portal, registers the binding as its delegate and returns [true]. *)
Theorem initialize_outcomes s r :
  let s' := exec (initialize r) s in
  let added := initialize_calls (this s) r in
  trace (env s') = trace (env s) ++ added
  ∧ editorBindingsByEditorProxy (this s') = editorBindingsByEditorProxy (this s)
  ∧ bufferBindingsByBufferProxy (this s') = bufferBindingsByBufferProxy (this s)
  ∧ activePaneItem (this s') = activePaneItem (this s)
  ∧ workspace (env s') = workspace (env s)
  ∧ match r with
    | JoinRejected error =>
        is_error_object error →
        outcome (initialize r) s = Return false
        ∧ this s' = this s
        ∧ (∃ message description,
             filter (λ e, is_notification e = true) added
             = [notify (addError message
                          (Some {| description := description; dismissable := true |}))]
             ∧ join_failure_notification (this s) error
               = Some (addError message
                         (Some {| description := description; dismissable := true |})))
        ∧ (∀ p, Portal_setDelegate p ∉ added)
    | JoinResolved None =>
        outcome (initialize r) s = Return false
        ∧ portal (this s') = None
        ∧ filter (λ e, is_notification e = true) added = []
        ∧ (∀ p, Portal_setDelegate p ∉ added)
    | JoinResolved (Some p) =>
        outcome (initialize r) s = Return true
        ∧ portal (this s') = Some p
        ∧ added = [client_joinPortal (portalId (this s)); Portal_setDelegate p]
    end.
Proof.
  unfold exec, outcome. rewrite initialize_unfold.
  assert (Hclean : ∀ (l : list Event) q,
            (∀ e, e ∈ l → ∀ q', e ≠ Portal_setDelegate q') →
            Portal_setDelegate q ∉ client_joinPortal (portalId (this s)) :: l).
  { intros l q Hl [Heq|Hin]%elem_of_cons; [discriminate|]. by eapply Hl. }
  unfold is_error_object.
  destruct r as [[p|]|[m|m|m|]]; cbn; repeat split; try reflexivity; try done.
  all: try (by eexists _, _).
  all: intros q; apply Hclean; intros e He q'.
  all: first [by inversion He | apply list_elem_of_singleton in He; by subst e].
Qed.

End Joining.

(** C3 as stated fails where [joinPortal] yields a null portal:
    [initialize] returns [false] there, but no notification at all is
    produced. *)
Lemma initialize_null_portal_is_silent :
  outcome (initialize (JoinResolved None)) fresh_binding = Return false
  ∧ count is_notification (trace (env (exec (initialize (JoinResolved None)) fresh_binding))) = 0.
Proof. split; reflexivity. Qed.

(** ** Leaving *)

Section Leaving.
Context {W : Type}.
Implicit Types s : State W.

(** C9, as the code has it.  [leave] has no guard of its own.  With the
    portal of a successful [initialize] it returns and makes exactly one
    [dispose] call on that portal, changing nothing else, so [n] calls
    of [leave] make [n] [dispose] calls on the portal.  Without a portal
    (before [initialize], or after a join that failed or yielded null)
    it raises a [TypeError] and changes nothing. *)
Theorem leave_disposes_portal_each_time s (n : nat) :
  match portal (this s) with
  | Some p =>
      leave s = (Return tt, Build_State (this s) (with_trace (env s) (trace (env s) ++ [Portal_dispose p])))
      ∧ Nat.iter n (exec leave) s
        = Build_State (this s) (with_trace (env s) (trace (env s) ++ replicate n (Portal_dispose p)))
  | None =>
      (∃ m, outcome leave s = Throw (TypeError m)) ∧ exec leave s = s
  end.
Proof.
  destruct s as [b v]. cbn [this]. destruct (portal b) as [p|] eqn:Hp.
  - assert (Hleave : ∀ t, exec leave (Build_State b (with_trace v t))
                          = Build_State b (with_trace v (t ++ [Portal_dispose p]))).
    { intros t. unfold leave. run_M. by rewrite Hp. }
    split.
    + unfold leave. run_M. by rewrite Hp.
    + induction n as [|n IH].
      * cbn. destruct v. unfold with_trace. cbn. by rewrite app_nil_r.
      * change (Nat.iter (S n) (exec leave) {| this := b; env := v |})
          with (exec leave (Nat.iter n (exec leave) {| this := b; env := v |})).
        rewrite IH, Hleave. cbn [env].
        rewrite <- app_assoc. do 2 f_equal.
        by rewrite <- replicate_S_end.
  - unfold leave. run_M. rewrite Hp. eauto.
Qed.

End Leaving.

(** C9 as stated fails before [initialize] has succeeded: [leave]
    raises. *)
Lemma leave_before_initialize_raises :
  outcome leave fresh_binding
  = Throw (TypeError "Cannot read property 'dispose' of undefined").
Proof. reflexivity. Qed.

(** ** The delegate callbacks that only report *)

Section Callbacks.
Context {W : Type}.
Implicit Types s : State W.

(** C5.  [hostDidClosePortal] and [hostDidLoseConnection] return, set
    [activePaneItem] to null and touch nothing else: the bindings, the
    maps and the workspace are as before, the only call made is the
    notification, so nothing is destroyed or disposed; and the two
    notifications differ. *)
Theorem host_callbacks_clear_tracking s :
  let closed := exec hostDidClosePortal s in
  let lost := exec hostDidLoseConnection s in
  (outcome hostDidClosePortal s = Return tt
   ∧ this closed = set_activePaneItem None (this s)
   ∧ workspace (env closed) = workspace (env s)
   ∧ observers (env closed) = observers (env s)
   ∧ trace (env closed) = trace (env s) ++ [notify portal_closed_by_host])
  ∧ (outcome hostDidLoseConnection s = Return tt
     ∧ this lost = set_activePaneItem None (this s)
     ∧ workspace (env lost) = workspace (env s)
     ∧ observers (env lost) = observers (env s)
     ∧ trace (env lost) = trace (env s) ++ [notify portal_closed_by_lost_connection])
  ∧ activePaneItem (set_activePaneItem None (this s)) = None
  ∧ editorBindingsByEditorProxy (set_activePaneItem None (this s))
      = editorBindingsByEditorProxy (this s)
  ∧ bufferBindingsByBufferProxy (set_activePaneItem None (this s))
      = bufferBindingsByBufferProxy (this s)
  ∧ activeEditorBinding (set_activePaneItem None (this s)) = activeEditorBinding (this s)
  ∧ count is_teardown (trace (env closed)) = count is_teardown (trace (env s))
  ∧ count is_teardown (trace (env lost)) = count is_teardown (trace (env s))
  ∧ portal_closed_by_host ≠ portal_closed_by_lost_connection.
Proof.
  cbn zeta. unfold hostDidClosePortal, hostDidLoseConnection. run_M.
  rewrite !count_app.
  repeat split; try reflexivity.
  - change (count is_teardown [notify portal_closed_by_host]) with 0. lia.
  - change (count is_teardown [notify portal_closed_by_lost_connection]) with 0. lia.
  - intros Heq. vm_compute in Heq. discriminate Heq.
Qed.

(** C8.  [siteDidJoin] and [siteDidLeave] leave the binding exactly as
    it was, whether they return or raise, and the workspace and the
    observers with it; what they add to the trace is nothing but
    informational notifications and the did-change event. *)
Theorem site_callbacks_keep_state s (siteId : nat) :
  let joined := exec (siteDidJoin siteId) s in
  let left := exec (siteDidLeave siteId) s in
  this joined = this s
  ∧ this left = this s
  ∧ workspace (env joined) = workspace (env s)
  ∧ workspace (env left) = workspace (env s)
  ∧ observers (env joined) = observers (env s)
  ∧ observers (env left) = observers (env s)
  ∧ (∃ added, trace (env joined) = trace (env s) ++ added
              ∧ Forall (λ e, is_info_or_did_change e = true) added)
  ∧ (∃ added, trace (env left) = trace (env s) ++ added
              ∧ Forall (λ e, is_info_or_did_change e = true) added).
Proof.
  cbn zeta. unfold siteDidJoin, siteDidLeave, site_notification. run_M.
  destruct (portal (this s)) as [p|]; cbn.
  2: { repeat split; exists []; by rewrite app_nil_r. }
  destruct (getSiteIdentity p 1) as [host|]; cbn.
  2: { repeat split; exists []; by rewrite app_nil_r. }
  destruct (getSiteIdentity p siteId) as [site|]; cbn.
  2: { repeat split; exists []; by rewrite app_nil_r. }
  repeat split; eexists; rewrite <- app_assoc; (split; [reflexivity|]);
    repeat constructor.
Qed.

(** With a joined portal that knows the host and the site, the two
    callbacks return and make exactly the two calls. *)
Lemma siteDidJoin_calls s p host site (siteId : nat) :
  portal (this s) = Some p →
  getSiteIdentity p 1 = Some host →
  getSiteIdentity p siteId = Some site →
  siteDidJoin siteId s =
    (Return tt,
     Build_State (this s)
       (Build_Env (workspace (env s)) (observers (env s)) (next_ref (env s))
          (trace (env s) ++
             [notify (addInfo ("@" +:+ login site +:+ " has joined @" +:+ login host +:+ "'s portal") None);
              emit_did_change]))).
Proof.
  intros Hp Hh Hs. unfold siteDidJoin, site_notification. run_M.
  rewrite Hp, Hh, Hs. run_M. by rewrite <- app_assoc.
Qed.

End Callbacks.

(** ** Replacing the displayed item *)

Section Replacing.
Context {W : Type} `{Workspace W}.
Implicit Types s : State W.

Lemma replaceActivePaneItem_unfold s item :
  replaceActivePaneItem item s =
    match replaced_workspace (this s) (workspace (env s)) item with
    | Some w' =>
        let d := {| sub_ref := next_ref (env s); sub_item := item |} in
        (Return tt,
         Build_State
           (set_newActivePaneItem None
              (set_activePaneItemDestroySubscription (Some d)
                 (set_activePaneItem (Some item) (this s))))
           (Build_Env w'
              (old_subscription_removed (this s) (observers (env s)) ++ [d])
              (S (next_ref (env s)))
              (trace (env s) ++ old_subscription_calls (this s) ++ [PaneItem_onDidDestroy item d])))
    | None =>
        (Throw (TypeError "Cannot read property 'getItems' of undefined"),
         Build_State (set_newActivePaneItem (Some item) (this s)) (env s))
    end.
Proof.
  destruct s as [[pid po api aeb epi ebs bbs sub nap] v].
  unfold replaceActivePaneItem, replaced_workspace.
  unfold old_subscription_calls, old_subscription_removed.
  unfold item_onDidDestroy, disposable_dispose. run_M.
  cbn [activePaneItem set_newActivePaneItem activePaneItemDestroySubscription].
  destruct v as [w o n t]. cbn.
  destruct api as [old|]; cbn.
  - destruct (paneForItem w old) as [pane|]; cbn; [|reflexivity].
    destruct sub as [d|]; cbn; rewrite <- ?app_assoc; reflexivity.
  - destruct sub as [d|]; cbn; rewrite <- ?app_assoc; reflexivity.
Qed.

Lemma tracked_observers_removed s :
  observers_tracked s →
  old_subscription_removed (this s) (observers (env s)) = [].
Proof.
  unfold observers_tracked, old_subscription_removed. intros Ht.
  destruct (activePaneItemDestroySubscription (this s)) as [d|].
  - induction (observers (env s)) as [|o l IH]; [done|].
    assert (Some d = Some o) as Heq by (apply Ht; by left).
    injection Heq as <-.
    rewrite filter_cons_False by (intros Hne; by apply Hne).
    apply IH. intros o Ho. apply Ht. by right.
  - destruct (observers (env s)) as [|o l]; [done|].
    assert (None = Some o) as Heq by (apply Ht; by left).
    discriminate Heq.
Qed.

Lemma item_destroy_sole_observer (b : GuestPortalBinding) (w : W) n t item d :
  sub_item d = item →
  item_destroy item (Build_State b (Build_Env w [d] n t)) =
    leave (Build_State b (Build_Env w [] n (t ++ [PaneItem_destroy item]))).
Proof.
  intros Hd. unfold item_destroy. run_M.
  rewrite (filter_cons_True (λ o : Disposable, sub_item o = item)) by done.
  rewrite (filter_cons_False (λ o : Disposable, sub_item o ≠ item))
    by (intros Hne; by apply Hne).
  rewrite !filter_nil. cbn [for_each]. run_M.
  by destruct (leave _) as [[[]|e] s1].
Qed.

(** Without a pane for the tracked item, [pane.getItems()] is a property
    access on [undefined]: the call raises, having written
    [newActivePaneItem] only. *)
Lemma replaceActivePaneItem_raises_without_pane s item old :
activePaneItem (this s) = Some old →
paneForItem (workspace (env s)) old = None →
replaceActivePaneItem item s =
  (Throw (TypeError "Cannot read property 'getItems' of undefined"),
   Build_State (set_newActivePaneItem (Some item) (this s)) (env s)).
Proof.
intros Hold Hpane. rewrite replaceActivePaneItem_unfold.
unfold replaced_workspace. by rewrite Hold, Hpane.
Qed.

(** With no item tracked the call stops at [await workspace.open],
    having written [newActivePaneItem] only; with an item tracked it is
    the whole method. *)
Lemma replaceActivePaneItem_begin_unfold s item :
  replaceActivePaneItem_begin item s =
    match activePaneItem (this s) with
    | None =>
        (Return true, Build_State (set_newActivePaneItem (Some item) (this s)) (env s))
    | Some _ =>
        match replaceActivePaneItem item s with
        | (Return _, s') => (Return false, s')
        | (Throw e, s') => (Throw e, s')
        end
    end.
Proof.
  destruct s as [[pid po api aeb epi ebs bbs sub nap] [w o n t]].
  unfold replaceActivePaneItem_begin, replaceActivePaneItem_install, replaceActivePaneItem.
  unfold item_onDidDestroy, disposable_dispose. run_M.
  cbn [activePaneItem set_newActivePaneItem activePaneItemDestroySubscription].
  destruct api as [old|]; cbn; [|reflexivity].
  destruct (paneForItem w old) as [pane|]; cbn; [|reflexivity].
  destruct sub as [d|]; cbn; reflexivity.
Qed.

(** A waiting call that goes on before any other call has run finishes
    as the uncut method does. *)
Lemma replaceActivePaneItem_resume_unfold s item :
  activePaneItem (this s) = None →
  replaceActivePaneItem_resume item
    (Build_State (set_newActivePaneItem (Some item) (this s)) (env s))
  = replaceActivePaneItem item s.
Proof.
  destruct s as [[pid po api aeb epi ebs bbs sub nap] [w o n t]].
  cbn [this activePaneItem]. intros ->.
  unfold replaceActivePaneItem_resume, replaceActivePaneItem_install, replaceActivePaneItem.
  unfold item_onDidDestroy, disposable_dispose. run_M.
  cbn [activePaneItem set_newActivePaneItem activePaneItemDestroySubscription].
  destruct sub as [d|]; cbn; reflexivity.
Qed.

Lemma replaceActivePaneItem_cut s item :
  replaceActivePaneItem_alone item s = replaceActivePaneItem item s.
Proof.
  unfold replaceActivePaneItem_alone.
  change (match replaceActivePaneItem_begin item s with
          | (Return waiting, s') =>
              (if waiting : bool then replaceActivePaneItem_resume item else mret tt) s'
          | (Throw e, s') => (Throw e, s')
          end = replaceActivePaneItem item s).
  rewrite replaceActivePaneItem_begin_unfold.
  destruct (activePaneItem (this s)) as [old|] eqn:Hold.
  - by destruct (replaceActivePaneItem item s) as [[[]|e] s'].
  - by apply replaceActivePaneItem_resume_unfold.
Qed.

(** What [replaceActivePaneItem(item)] does when no other call of it is
    waiting and the item the binding tracks is in a pane (or there is
    none): it returns.  With a tracked item it
    adds the new item to the pane of the old one at the old one's index
    and then removes the old one from that pane; without one it opens
    the new item through the workspace.  Either way the new item becomes
    the tracked one and carries the one live destroy observer, and that
    observer is [leave]: destroying the item calls [dispose] on the
    portal (and raises as [leave] does when there is no portal). *)
Theorem replaceActivePaneItem_swaps_or_opens s item :
  active_item_in_pane s →
  observers_tracked s →
  let s' := exec (replaceActivePaneItem item) s in
  let w := workspace (env s) in
  let d := {| sub_ref := next_ref (env s); sub_item := item |} in
  outcome (replaceActivePaneItem item) s = Return tt
  ∧ match activePaneItem (this s) with
    | Some old =>
        ∃ pane, paneForItem w old = Some pane
                ∧ workspace (env s') =
                    removeItem pane old
                      (addItem pane item (indexOf old (getItems w pane)) w)
    | None => workspace (env s') = workspace_open item w
    end
  ∧ activePaneItem (this s') = Some item
  ∧ newActivePaneItem (this s') = None
  ∧ activePaneItemDestroySubscription (this s') = Some d
  ∧ observers (env s') = [d]
  ∧ trace (env s') =
      trace (env s) ++ old_subscription_calls (this s) ++ [PaneItem_onDidDestroy item d]
  ∧ match portal (this s) with
    | Some p =>
        item_destroy item s' =
          (Return tt,
           Build_State (this s')
             (Build_Env (workspace (env s')) [] (next_ref (env s'))
                (trace (env s') ++ [PaneItem_destroy item; Portal_dispose p])))
    | None => ∃ m, outcome (item_destroy item) s' = Throw (TypeError m)
    end.
Proof.
  intros Hpane Htracked. cbn zeta. unfold exec, outcome.
  rewrite replaceActivePaneItem_unfold.
  rewrite (tracked_observers_removed s Htracked).
  unfold replaced_workspace, active_item_in_pane in *.
  destruct s as [b v]. cbn [this env] in *.
  destruct (activePaneItem b) as [old|] eqn:Hold.
  - destruct (Hpane old eq_refl) as [pane Hp]. rewrite Hp. cbn.
    split; [done|]. split; [by exists pane|]. repeat (split; [done|]).
    rewrite item_destroy_sole_observer by done.
    unfold leave. run_M. cbn.
    destruct (portal b) as [p|]; cbn; [|by eauto].
    by rewrite <- !app_assoc.
  - cbn. repeat (split; [done|]).
    rewrite item_destroy_sole_observer by done.
    unfold leave. run_M. cbn.
    destruct (portal b) as [p|]; cbn; [|by eauto].
    by rewrite <- !app_assoc.
Qed.

End Replacing.

(** ** Activating an editor proxy *)

Section Activating.
Context {W : Type} `{Workspace W}.
Implicit Types s : State W.

Lemma resolveEditorBinding_unfold s ep :
  resolveEditorBinding ep s =
    let '(eb, b1, n1, calls) := resolve (this s) (next_ref (env s)) ep in
    (Return eb,
     Build_State b1
       (Build_Env (workspace (env s)) (observers (env s)) n1 (trace (env s) ++ calls))).
Proof.
  destruct s as [b [w o n t]]. unfold resolveEditorBinding, resolve. run_M.
  destruct (editorBindingsByEditorProxy b !! ep_ref ep) as [eb|]; cbn.
  { by rewrite (app_nil_r t). }
  destruct (bufferBindingsByBufferProxy b !! bp_ref (bufferProxy ep)) as [bb|]; cbn.
  - by rewrite <- !app_assoc.
  - by rewrite <- !app_assoc.
Qed.

Lemma setActiveEditorProxy_unfold s ep :
  setActiveEditorProxy (Some ep) s =
    let '(eb, b1, n1, calls) := resolve (this s) (next_ref (env s)) ep in
    match replaceActivePaneItem (ItemEditor (editor eb))
            (Build_State (set_activeEditorBinding (Some eb) b1)
               (Build_Env (workspace (env s)) (observers (env s)) n1
                  (trace (env s) ++ calls))) with
    | (Return _, s2) =>
        (Return tt,
         Build_State (this s2)
           (Build_Env (workspace (env s2)) (observers (env s2)) (next_ref (env s2))
              (trace (env s2) ++ [EditorBinding_autoscrollToLastHostSelection eb])))
    | (Throw e, s2) => (Throw e, s2)
    end.
Proof.
  unfold setActiveEditorProxy.
  unfold mbind at 1, M_bind at 1, bind at 1.
  rewrite resolveEditorBinding_unfold.
  destruct (resolve (this s) (next_ref (env s)) ep) as [[[eb b1] n1] calls].
  run_M. cbn.
  by destruct (replaceActivePaneItem _ _) as [[[]|e] s2].
Qed.

Lemma resolve_found b n ep eb :
  editorBindingsByEditorProxy b !! ep_ref ep = Some eb →
  resolve b n ep = (eb, b, n, []).
Proof. intros Hl. unfold resolve. by rewrite Hl. Qed.

(** What [resolveEditorBinding] leaves alone, and what it guarantees. *)
Lemma resolve_frame b n ep eb b1 n1 calls :
  resolve b n ep = (eb, b1, n1, calls) →
  editorBindingsByEditorProxy b1 !! ep_ref ep = Some eb
  ∧ portalId b1 = portalId b
  ∧ portal b1 = portal b
  ∧ activePaneItem b1 = activePaneItem b
  ∧ activeEditorBinding b1 = activeEditorBinding b
  ∧ emptyPortalItem b1 = emptyPortalItem b
  ∧ activePaneItemDestroySubscription b1 = activePaneItemDestroySubscription b
  ∧ newActivePaneItem b1 = newActivePaneItem b.
Proof.
  unfold resolve.
  destruct (editorBindingsByEditorProxy b !! ep_ref ep) as [eb0|] eqn:He.
  { intros [= <- <- <- <-]. done. }
  destruct (bufferBindingsByBufferProxy b !! bp_ref (bufferProxy ep)) as [bb|];
    intros [= <- <- <- <-]; cbn; by rewrite lookup_insert_eq.
Qed.

(** Cut at the [await] and run with no other call in between,
    [setActiveEditorProxy] is the uncut method. *)
Lemma setActiveEditorProxy_cut s editorProxy :
  setActiveEditorProxy_alone editorProxy s = setActiveEditorProxy editorProxy s.
Proof.
  destruct editorProxy as [ep|].
  - rewrite setActiveEditorProxy_unfold.
    unfold setActiveEditorProxy_alone, setActiveEditorProxy_begin.
    unfold mbind at 1 2, M_bind at 1 2, bind at 1 2.
    rewrite resolveEditorBinding_unfold.
    destruct (resolve (this s) (next_ref (env s)) ep) as [[[eb b1] n1] calls].
    unfold setActiveEditorProxy_resume. run_M.
    rewrite replaceActivePaneItem_begin_unfold. cbn [this env activePaneItem set_activeEditorBinding].
    destruct (activePaneItem b1) as [old|] eqn:Hold.
    + by destruct (replaceActivePaneItem _ _) as [[[]|e] s2].
    + cbn [pending_item pending_binding].
      rewrite <- (replaceActivePaneItem_resume_unfold
                    (Build_State (set_activeEditorBinding (Some eb) b1) _)) by done.
      by destruct (replaceActivePaneItem_resume _ _) as [[[]|e] s2].
  - unfold setActiveEditorProxy_alone, setActiveEditorProxy_begin, setActiveEditorProxy.
    unfold setActiveEditorProxy_resume. run_M.
    rewrite replaceActivePaneItem_begin_unfold.
    destruct (activePaneItem (this s)) as [old|] eqn:Hold.
    + by destruct (replaceActivePaneItem _ _) as [[[]|e] s2].
    + cbn [pending_item pending_binding fst snd].
      rewrite <- (replaceActivePaneItem_resume_unfold s) by done.
      by destruct (replaceActivePaneItem_resume _ _) as [[[]|e] s2].
Qed.

(** What [setActiveEditorProxy] does when no other call of it is
    waiting and the item the binding tracks is in a pane (or there is
    none): it returns.  After a call with null the
    tracked pane item is the placeholder [emptyPortalItem]; after a call
    with an editor proxy it is the editor of the editor binding that the
    map holds for that proxy (the one it held before, if any), and that
    binding is the active one.  Hence the placeholder is the tracked
    item exactly when the call received null.  In both cases the
    workspace is the one [replaceActivePaneItem] makes for that item. *)
Theorem setActiveEditorProxy_displays s editorProxy :
  active_item_in_pane s →
  let s' := exec (setActiveEditorProxy editorProxy) s in
  outcome (setActiveEditorProxy editorProxy) s = Return tt
  ∧ emptyPortalItem (this s') = emptyPortalItem (this s)
  ∧ match editorProxy with
    | None =>
        activePaneItem (this s') = Some (ItemEmpty (emptyPortalItem (this s)))
    | Some ep =>
        ∃ eb,
          editorBindingsByEditorProxy (this s') !! ep_ref ep = Some eb
          ∧ activeEditorBinding (this s') = Some eb
          ∧ activePaneItem (this s') = Some (ItemEditor (editor eb))
          ∧ (∀ eb0, editorBindingsByEditorProxy (this s) !! ep_ref ep = Some eb0 → eb = eb0)
    end
  ∧ (activePaneItem (this s') = Some (ItemEmpty (emptyPortalItem (this s')))
     ↔ editorProxy = None)
  ∧ (∃ item, activePaneItem (this s') = Some item
             ∧ replaced_workspace (this s) (workspace (env s)) item
               = Some (workspace (env s'))).
Proof.
  intros Hpane. cbn zeta. unfold exec, outcome.
  destruct editorProxy as [ep|].
  - rewrite setActiveEditorProxy_unfold.
    destruct (resolve (this s) (next_ref (env s)) ep) as [[[eb b1] n1] calls] eqn:Hr.
    pose proof (resolve_frame _ _ _ _ _ _ _ Hr) as (Hl & _ & _ & Hapi & _ & Hepi & _ & _).
    rewrite replaceActivePaneItem_unfold. cbn [this env workspace].
    assert (∃ w', replaced_workspace (set_activeEditorBinding (Some eb) b1)
                    (workspace (env s)) (ItemEditor (editor eb)) = Some w'
                  ∧ replaced_workspace (this s) (workspace (env s)) (ItemEditor (editor eb))
                    = Some w') as (w' & Hw & Hw0).
    { unfold replaced_workspace. cbn [activePaneItem set_activeEditorBinding].
      rewrite Hapi. destruct (activePaneItem (this s)) as [old|] eqn:Hold; [|by eauto].
      destruct (Hpane old Hold) as [pane ->]. by eauto. }
    rewrite Hw. cbn.
    repeat split; try done.
    + exists eb. repeat split; try done.
      intros eb0 Hl0. rewrite (resolve_found _ _ _ _ Hl0) in Hr. congruence.
    + by exists (ItemEditor (editor eb)).
  - unfold setActiveEditorProxy. run_M.
    rewrite replaceActivePaneItem_unfold.
    assert (∃ w', replaced_workspace (this s) (workspace (env s))
                    (ItemEmpty (emptyPortalItem (this s))) = Some w') as (w' & Hw).
    { unfold replaced_workspace.
      destruct (activePaneItem (this s)) as [old|] eqn:Hold; [|by eauto].
      destruct (Hpane old Hold) as [pane ->]. by eauto. }
    rewrite Hw. cbn. repeat split; try done.
    by exists (ItemEmpty (emptyPortalItem (this s))).
Qed.

End Activating.

(** ** Sequences of activations *)

Section Sequences.
Context {W : Type} `{Workspace W}.
Implicit Types s : State W.

Lemma count_le p q l :
  (∀ e, p e = true → q e = true) → count p l ≤ count q l.
Proof.
  intros Hpq. unfold count. induction l as [|e l IH]; [done|].
  rewrite !filter_cons. repeat case_decide; cbn; try lia.
  exfalso. auto.
Qed.

Lemma count_construction_0 l :
  count is_construction l = 0 →
  count is_new_EditorBinding l = 0 ∧ count is_new_TextEditor l = 0
  ∧ count is_new_BufferBinding l = 0 ∧ count is_new_TextBuffer l = 0.
Proof.
  intros H0.
  assert (Hle : ∀ p, (∀ e, p e = true → is_construction e = true) → count p l = 0).
  { intros p Hp. pose proof (count_le p is_construction l Hp). lia. }
  repeat split; apply Hle; by intros [].
Qed.

Lemma replaceActivePaneItem_frame s item :
  let s1 := exec (replaceActivePaneItem item) s in
  editorBindingsByEditorProxy (this s1) = editorBindingsByEditorProxy (this s)
  ∧ bufferBindingsByBufferProxy (this s1) = bufferBindingsByBufferProxy (this s)
  ∧ activeEditorBinding (this s1) = activeEditorBinding (this s)
  ∧ getActivePaneItem (this s1) = Some item
  ∧ ∃ added, trace (env s1) = trace (env s) ++ added
             ∧ count is_construction added = 0.
Proof.
  cbn zeta. unfold exec. rewrite replaceActivePaneItem_unfold.
  destruct (replaced_workspace _ _ _) as [w'|]; cbn.
  - repeat split; try done. eexists. split; [reflexivity|].
    unfold old_subscription_calls.
    by destruct (activePaneItemDestroySubscription (this s)).
  - repeat split; try done. exists []. by rewrite app_nil_r.
Qed.

Lemma resolve_counts b n ep eb b1 n1 calls :
  resolve b n ep = (eb, b1, n1, calls) →
  count is_new_EditorBinding calls + size (editorBindingsByEditorProxy b)
    = size (editorBindingsByEditorProxy b1)
  ∧ count is_new_TextEditor calls + size (editorBindingsByEditorProxy b)
    = size (editorBindingsByEditorProxy b1)
  ∧ count is_new_BufferBinding calls + size (bufferBindingsByBufferProxy b)
    = size (bufferBindingsByBufferProxy b1)
  ∧ count is_new_TextBuffer calls + size (bufferBindingsByBufferProxy b)
    = size (bufferBindingsByBufferProxy b1).
Proof.
  unfold resolve.
  destruct (editorBindingsByEditorProxy b !! ep_ref ep) as [eb0|] eqn:He.
  { intros [= <- <- <- <-]. done. }
  destruct (bufferBindingsByBufferProxy b !! bp_ref (bufferProxy ep)) as [bb|] eqn:Hb;
    intros [= <- <- <- <-]; cbn [editorBindingsByEditorProxy bufferBindingsByBufferProxy
      set_editorBindingsByEditorProxy set_bufferBindingsByBufferProxy];
    rewrite ?map_size_insert_None by done; repeat split; reflexivity.
Qed.

Lemma resolve_keys b n ep eb b1 n1 calls k :
  resolve b n ep = (eb, b1, n1, calls) →
  is_Some (editorBindingsByEditorProxy b1 !! k)
  ↔ is_Some (editorBindingsByEditorProxy b !! k) ∨ k = ep_ref ep.
Proof.
  unfold resolve.
  destruct (editorBindingsByEditorProxy b !! ep_ref ep) as [eb0|] eqn:He.
  { intros [= <- <- <- <-]. split; [by left|]. intros [?| ->]; [done|by eexists]. }
  destruct (bufferBindingsByBufferProxy b !! bp_ref (bufferProxy ep)) as [bb|] eqn:Hb;
    intros [= <- <- <- <-]; cbn [editorBindingsByEditorProxy bufferBindingsByBufferProxy
      set_editorBindingsByEditorProxy set_bufferBindingsByBufferProxy];
    rewrite lookup_insert; destruct (decide (ep_ref ep = k)) as [<-|Hne].
  - split; [intros _; by right|intros _; by eapply mk_is_Some].
  - split; [intros Hs; by left|intros [Hs|Hk]; [done|congruence]].
  - split; [intros _; by right|intros _; by eapply mk_is_Some].
  - split; [intros Hs; by left|intros [Hs|Hk]; [done|congruence]].
Qed.

(** One activation, returned or raised: what it adds to the maps is
    what it constructs, and the only key it can add is the proxy's. *)
Lemma setActiveEditorProxy_step s a :
  let s' := exec (setActiveEditorProxy a) s in
  (∃ added, trace (env s') = trace (env s) ++ added
    ∧ count is_new_EditorBinding added + size (editorBindingsByEditorProxy (this s))
      = size (editorBindingsByEditorProxy (this s'))
    ∧ count is_new_TextEditor added + size (editorBindingsByEditorProxy (this s))
      = size (editorBindingsByEditorProxy (this s'))
    ∧ count is_new_BufferBinding added + size (bufferBindingsByBufferProxy (this s))
      = size (bufferBindingsByBufferProxy (this s'))
    ∧ count is_new_TextBuffer added + size (bufferBindingsByBufferProxy (this s))
      = size (bufferBindingsByBufferProxy (this s')))
  ∧ (∀ k, is_Some (editorBindingsByEditorProxy (this s') !! k)
          ↔ is_Some (editorBindingsByEditorProxy (this s) !! k)
            ∨ ∃ ep, a = Some ep ∧ k = ep_ref ep).
Proof.
  cbn zeta. destruct a as [ep|].
  - unfold exec. rewrite setActiveEditorProxy_unfold.
    destruct (resolve (this s) (next_ref (env s)) ep) as [[[eb b1] n1] calls] eqn:Hr.
    pose proof (resolve_counts _ _ _ _ _ _ _ Hr) as (Hc1 & Hc2 & Hc3 & Hc4).
    match goal with |- context [replaceActivePaneItem ?i ?s1] =>
      pose proof (replaceActivePaneItem_frame s1 i) as (He & Hb & _ & _ & added & Ht & H0);
      unfold exec in *; destruct (replaceActivePaneItem i s1) as [[[]|e] s2] end;
      cbn [snd this env trace set_activeEditorBinding editorBindingsByEditorProxy
             bufferBindingsByBufferProxy] in *;
      apply count_construction_0 in H0 as (H1 & H2 & H3 & H4);
      rewrite He, Hb.
    + split.
      * exists (calls ++ added ++ [EditorBinding_autoscrollToLastHostSelection eb]).
        rewrite Ht, <- !app_assoc, !count_app, H1, H2, H3, H4.
        repeat split; try done; cbn; repeat case_decide; try done; cbn; lia.
      * intros k. rewrite (resolve_keys _ _ _ _ _ _ _ k Hr).
        split; (intros [Hs|Hk]; [by left|right]); [by exists ep|].
        by destruct Hk as (ep0 & [= <-] & ->).
    + split.
      * exists (calls ++ added).
        rewrite Ht, <- !app_assoc, !count_app, H1, H2, H3, H4.
        repeat split; try done; cbn; lia.
      * intros k. rewrite (resolve_keys _ _ _ _ _ _ _ k Hr).
        split; (intros [Hs|Hk]; [by left|right]); [by exists ep|].
        by destruct Hk as (ep0 & [= <-] & ->).
  - unfold setActiveEditorProxy. run_M.
    pose proof (replaceActivePaneItem_frame s (ItemEmpty (emptyPortalItem (this s))))
      as (He & Hb & _ & _ & added & Ht & H0).
    unfold exec in *.
    apply count_construction_0 in H0 as (H1 & H2 & H3 & H4).
    rewrite He, Hb. split.
    + exists added. rewrite Ht, H1, H2, H3, H4. done.
    + intros k. split; [by left|]. by intros [Hs|(ep & Hep & _)].
Qed.

Lemma activations_snoc calls a s :
  activations (calls ++ [a]) s = exec (setActiveEditorProxy a) (activations calls s).
Proof. unfold activations. by rewrite fold_left_app. Qed.

(** After any sequence of activations, the bindings the maps hold are
    the bindings that were constructed, and the keys are the proxies
    that were activated. *)
Lemma activations_invariant (pid : string) (v : Env W) calls :
  let s := activations calls (constructor pid v) in
  (∃ made, trace (env s) = trace v ++ made
    ∧ count is_new_EditorBinding made = size (editorBindingsByEditorProxy (this s))
    ∧ count is_new_TextEditor made = size (editorBindingsByEditorProxy (this s))
    ∧ count is_new_BufferBinding made = size (bufferBindingsByBufferProxy (this s))
    ∧ count is_new_TextBuffer made = size (bufferBindingsByBufferProxy (this s)))
  ∧ (∀ k, is_Some (editorBindingsByEditorProxy (this s) !! k)
          ↔ ∃ ep, Some ep ∈ calls ∧ k = ep_ref ep).
Proof.
  cbn zeta. induction calls as [|a calls IH] using rev_ind.
  - cbn. split.
    + exists []. rewrite app_nil_r. repeat split; by rewrite ?map_size_empty.
    + intros k. rewrite lookup_empty. split.
      * by intros [? ?].
      * intros (ep & Hin & _). by apply elem_of_nil in Hin.
  - rewrite activations_snoc.
    destruct IH as ((made & Ht & Hc1 & Hc2 & Hc3 & Hc4) & Hkeys).
    pose proof (setActiveEditorProxy_step (activations calls (constructor pid v)) a)
      as ((added & Ht' & Hd1 & Hd2 & Hd3 & Hd4) & Hkeys').
    split.
    + exists (made ++ added).
      rewrite Ht', Ht, <- app_assoc, !count_app. repeat split; lia.
    + intros k. rewrite Hkeys', Hkeys. split.
      * intros [(ep & Hin & ->)|(ep & -> & ->)]; exists ep; split; try done;
          rewrite elem_of_app, list_elem_of_singleton; by eauto.
      * intros (ep & Hin & ->).
        apply elem_of_app in Hin as [Hin|Hin]; [left; by eauto|].
        apply list_elem_of_singleton in Hin as <-. right. by eauto.
Qed.


End Sequences.

(** ** Disposing *)

Section Disposing.
Context {W : Type}.
Implicit Types s : State W.

Lemma item_destroy_no_observer (b : GuestPortalBinding) (w : W) n t item :
  item_destroy item (Build_State b (Build_Env w [] n t)) =
    (Return tt, Build_State b (Build_Env w [] n (t ++ [PaneItem_destroy item]))).
Proof. reflexivity. Qed.

Lemma dispose_unfold (b : GuestPortalBinding) (w : W) o n t :
  old_subscription_removed b o = [] →
  dispose (Build_State b (Build_Env w o n t)) =
    (Return tt, Build_State b (Build_Env w [] n (t ++ dispose_calls b))).
Proof.
  unfold old_subscription_removed, dispose, dispose_calls, disposable_dispose.
  intros Ho. run_M.
  destruct (activePaneItemDestroySubscription b) as [d|]; run_M; rewrite Ho.
  - destruct (activePaneItem b) as [item|]; run_M;
      rewrite !item_destroy_no_observer; cbn; by rewrite <- !app_assoc.
  - destruct (activePaneItem b) as [item|]; run_M;
      rewrite !item_destroy_no_observer; cbn; by rewrite <- !app_assoc.
Qed.

(** C4, as the code has it.  [dispose] has no guard.  On a binding whose
    live destroy observers are the tracked one, a call returns, leaves
    the binding's fields as they are and no observer alive, and makes
    the teardown calls [dispose_calls]; a second call returns as well,
    changes nothing more in the binding or among the observers, and
    makes exactly the same calls once more, so that [didDispose] has
    then fired twice. *)
Theorem dispose_repeats_teardown s :
  observers_tracked s →
  let s1 := exec dispose s in
  let s2 := exec dispose s1 in
  outcome dispose s = Return tt
  ∧ outcome dispose s1 = Return tt
  ∧ this s1 = this s
  ∧ this s2 = this s
  ∧ observers (env s1) = []
  ∧ observers (env s2) = []
  ∧ workspace (env s2) = workspace (env s)
  ∧ trace (env s1) = trace (env s) ++ dispose_calls (this s)
  ∧ trace (env s2) = trace (env s) ++ dispose_calls (this s) ++ dispose_calls (this s)
  ∧ count is_emitDidDispose (dispose_calls (this s)) = 1
  ∧ count is_emitDidDispose (trace (env s2))
    = count is_emitDidDispose (trace (env s)) + 2.
Proof.
  intros Htracked. cbn zeta. unfold exec, outcome.
  pose proof (tracked_observers_removed s Htracked) as Ho.
  destruct s as [b [w o n t]]. cbn [this env observers] in Ho.
  rewrite (dispose_unfold _ _ _ _ _ Ho). cbn [fst snd this env].
  rewrite dispose_unfold.
  2: { unfold old_subscription_removed.
       by destruct (activePaneItemDestroySubscription b). }
  cbn [fst snd this env observers trace workspace].
  assert (Hone : count is_emitDidDispose (dispose_calls b) = 1).
  { unfold dispose_calls.
    destruct (activePaneItemDestroySubscription b), (activePaneItem b); reflexivity. }
  rewrite <- app_assoc, !count_app, Hone.
  repeat split; try done.
Qed.

End Disposing.

(** C4 as stated fails: after a second [dispose] the [didDispose] callback
    has fired twice, and [destroy] has been called on the placeholder four
    times, twice as the active pane item and twice as the empty portal
    item. *)
Lemma dispose_twice_fires_didDispose_twice :
  let s2 := exec dispose (exec dispose placeholder_shown) in
  count is_emitDidDispose (trace (env s2)) = 2
  ∧ count is_PaneItem_destroy (trace (env s2)) = 4.
Proof. split; vm_compute; reflexivity. Qed.

(** ** The status-bar indicator's first click *)

Module IndicatorProperties.
Import PortalStatusBarIndicator.

Lemma calls_app l1 l2 : calls (l1 ++ l2) = calls l1 ++ calls l2.
Proof. apply filter_app. Qed.

#[local] Arguments calls : simpl never.

Ltac close_stage n :=
  exists n; rewrite ?calls_app;
  repeat match goal with Hc : calls _ = _ |- _ => rewrite Hc; clear Hc end;
  split; [lia|]; split; [by vm_compute|]; eauto.

Lemma single_run_step i x : single_run i → single_run (step i x).
Proof.
  unfold single_run.
  destruct i as [oc pbm ap pc tt pl su no lg]. cbn [onclick suspended log].
  destruct oc as [h|].
  - intros [-> Hc]. destruct x as [|k v|k]; cbn.
    + destruct h. cbn. close_stage 0.
    + by destruct k.
    + done.
  - intros (n & Hn & Hc & Hs). destruct x as [|k v|k]; cbn.
    + exists n. rewrite calls_app, Hc. split; [done|]. split; [|done].
      change (calls [element_click]) with (@nil Call). by rewrite app_nil_r.
    + destruct Hs as [-> | ->]; [|destruct k; cbn; exists n; by eauto].
      destruct n as [|[|[|n]]]; cbn [waiting_after];
        (destruct k as [|k]; cbn;
         [|by (eexists; split; [exact Hn|]; split; [exact Hc|]; left)]).
      * close_stage 1.
      * close_stage 2.
      * close_stage 3.
      * exists (S (S (S n))). eauto.
    + exists n. split; [done|]. split; [done|].
      destruct Hs as [-> | ->]; [|right; by destruct k].
      destruct n as [|[|[|n]]]; cbn [waiting_after];
        destruct k as [|k]; cbn; eauto.
Qed.

Lemma single_run_run inputs i : single_run i → single_run (run inputs i).
Proof.
  revert i. induction inputs as [|x inputs IH]; intros i Hi; [done|].
  cbn. apply IH. by apply single_run_step.
Qed.

Lemma onclick_step i x :
  single_run i →
  onclick (step i x) = if decide (x = Click) then None else onclick i.
Proof.
  unfold single_run.
  destruct i as [oc pbm ap pc tt pl su no lg]. cbn [onclick suspended log].
  destruct x as [|k v|k]; cbn; [by destruct oc as [[]|]| |done].
  destruct oc as [h|].
  - intros [-> _]. by destruct k.
  - intros _. by destruct (su !! k) as [[]|].
Qed.

Lemma onclick_run inputs i :
  single_run i →
  onclick (run inputs i) = if decide (Click ∈ inputs) then None else onclick i.
Proof.
  revert i. induction inputs as [|x inputs IH]; intros i Hi.
  - cbn. rewrite decide_False; [done|]. apply not_elem_of_nil.
  - cbn [run fold_left]. fold (run inputs (step i x)).
    rewrite IH by (by apply single_run_step).
    rewrite (onclick_step i x Hi).
    destruct (decide (x = Click)) as [->|Hx].
    + rewrite (decide_True (P := Click ∈ Click :: inputs)) by (by left).
      by case_decide.
    + destruct (decide (Click ∈ inputs)) as [Hin|Hin].
      * rewrite decide_True; [done|]. by right.
      * rewrite decide_False; [done|].
        rewrite elem_of_cons. intros [Heq|Hin']; [by apply Hx|by apply Hin].
Qed.

Lemma occurrences_calls c l :
  c ≠ element_click → occurrences c l = occurrences c (calls l).
Proof.
  intros Hc. unfold occurrences, calls. induction l as [|x l IH]; [done|].
  rewrite (filter_cons (λ c, c ≠ element_click)).
  destruct (decide (x = c)) as [->|Hx].
  - rewrite decide_True by done. rewrite !filter_cons_True by done. cbn. by rewrite IH.
  - rewrite filter_cons_False by done. rewrite IH.
    case_decide; [|done]. by rewrite filter_cons_False.
Qed.

(** C10.  Whatever clicks, resolutions and rejections reach an
    indicator, in whatever order: [element.onclick] is the initial
    handler until the first click and null from then on; whenever any
    call of the initialisation has been made the handler is already
    gone; and the look-up of the portal binding manager, the set-up of
    the authentication provider, the construction of the popover and the
    registration of the tooltip each happen at most once (the first of
    them exactly once as soon as there has been a click). *)
Theorem initialisation_runs_at_most_once (loaded : bool) (inputs : list Input) :
  let i := run inputs (constructor loaded) in
  onclick i = (if decide (Click ∈ inputs) then None else Some handleInitialClick_bound)
  ∧ (onclick i = None ∨ calls (log i) = [])
  ∧ occurrences props_getPortalBindingManager (log i)
    = (if decide (Click ∈ inputs) then 1 else 0)
  ∧ occurrences props_getAuthenticationProvider (log i) ≤ 1
  ∧ occurrences authenticationProvider_signInUsingSavedToken (log i) ≤ 1
  ∧ occurrences new_PopoverComponent (log i) ≤ 1
  ∧ occurrences tooltipManager_add (log i) ≤ 1
  ∧ length (suspended i) ≤ 1.
Proof.
  cbn zeta.
  assert (H0 : single_run (constructor loaded)) by (by split).
  pose proof (single_run_run inputs _ H0) as Hrun.
  pose proof (onclick_run inputs _ H0) as Hon.
  cbn [onclick constructor] in Hon.
  split; [done|].
  rewrite (occurrences_calls props_getPortalBindingManager) by done.
  rewrite (occurrences_calls props_getAuthenticationProvider) by done.
  rewrite (occurrences_calls authenticationProvider_signInUsingSavedToken) by done.
  rewrite (occurrences_calls new_PopoverComponent) by done.
  rewrite (occurrences_calls tooltipManager_add) by done.
  unfold single_run in Hrun. rewrite Hon in Hrun |- *.
  destruct (decide (Click ∈ inputs)) as [Hin|Hin].
  - destruct Hrun as (n & Hn & -> & Hs).
    split; [by left|].
    assert (length (suspended (run inputs (constructor loaded))) ≤ 1) as Hlen.
    { destruct Hs as [-> | ->]; [|cbn; lia]. by destruct n as [|[|[|n]]]; cbn; lia. }
    destruct n as [|[|[|n]]]; repeat split; try done; vm_compute; lia.
  - destruct Hrun as [-> ->]. split; [by right|]. repeat split; vm_compute; lia.
Qed.

End IndicatorProperties.

(** ** The path of a remote buffer *)

Module RemotePathProperties.
Import RemotePath.









End RemotePathProperties.


(** ** The list workspace swaps in place *)

Module ListWorkspaceProperties.
Import ListWorkspace.

Lemma indexOf_first l1 l2 old :
  old ∉ l1 → indexOf old (l1 ++ old :: l2) = Z.of_nat (length l1).
Proof.
  induction l1 as [|x l1 IH]; intros Hnot.
  - cbn. by rewrite decide_True.
  - apply not_elem_of_cons in Hnot as [Hne Hnot].
    cbn [app indexOf]. rewrite decide_False by done.
    rewrite (IH Hnot). rewrite decide_False by lia. cbn [length]. lia.
Qed.

Lemma splice_in_at l1 l2 new :
  splice_in (Z.of_nat (length l1)) new (l1 ++ l2) = l1 ++ new :: l2.
Proof.
  unfold splice_in. rewrite decide_False by lia.
  rewrite length_app, Z.min_l by lia.
  by rewrite Nat2Z.id, take_app_length, drop_app_length.
Qed.

(** In a pane that holds [old] and not [new], adding [new] at the index
    of [old] and removing [old] puts [new] where [old] was and leaves
    the other items where they were. *)
Lemma swap_in_place (w : t) (p : nat) l1 l2 old new :
  items_of w p = l1 ++ old :: l2 →
  old ∉ l1 →
  new ∉ l1 ++ old :: l2 →
  items_of (remove p old (add p new (indexOf old (items_of w p)) w)) p
  = l1 ++ new :: l2.
Proof.
  intros Hitems Hold Hnew.
  assert (Hp : panes w !! p = Some (l1 ++ old :: l2)).
  { unfold items_of in Hitems. destruct (panes w !! p) as [l|]; cbn in Hitems.
    - by subst.
    - by destruct l1. }
  unfold add. rewrite decide_False by (by rewrite Hitems).
  rewrite Hitems, (indexOf_first _ _ _ Hold).
  unfold remove, items_of. cbn [panes].
  rewrite !list_lookup_alter_eq, Hp. cbn.
  rewrite splice_in_at.
  assert (Hne : new ≠ old).
  { intros ->. apply Hnew. apply elem_of_app. right. by left. }
  assert (Hnew1 : new ∉ l1).
  { intros Hin. apply Hnew. apply elem_of_app. by left. }
  clear Hp Hitems Hnew. induction l1 as [|x l1 IH].
  - cbn. rewrite decide_False by done. by rewrite decide_True.
  - apply not_elem_of_cons in Hold as [Hx Hold].
    apply not_elem_of_cons in Hnew1 as [_ Hnew1].
    cbn [app take_out]. rewrite decide_False by done. by rewrite IH.
Qed.

(** [replaceActivePaneItem] on lists, with no other call waiting: when
    the tracked item [old] is in pane [p] and [new] is not, the call
    returns, [new] stands where [old] stood, the items before and after
    keep their places, every other pane is as it was, and [new] is the
    tracked item. *)
Lemma replaceActivePaneItem_swaps_in_place (s : State t) (p : nat) l1 l2 old new :
  activePaneItem (this s) = Some old →
  pane_holding (workspace (env s)) old = Some p →
  items_of (workspace (env s)) p = l1 ++ old :: l2 →
  old ∉ l1 →
  new ∉ l1 ++ old :: l2 →
  let s' := exec (replaceActivePaneItem new) s in
  outcome (replaceActivePaneItem new) s = Return tt
  ∧ items_of (workspace (env s')) p = l1 ++ new :: l2
  ∧ (∀ q, q ≠ p → items_of (workspace (env s')) q = items_of (workspace (env s)) q)
  ∧ activePaneItem (this s') = Some new.
Proof.
  intros Hold Hp Hitems Hl1 Hnew. cbn zeta. unfold exec, outcome.
  rewrite replaceActivePaneItem_unfold. unfold replaced_workspace.
  rewrite Hold. cbn [paneForItem workspace_instance]. rewrite Hp.
  cbn [fst snd this env workspace getItems addItem removeItem activePaneItem
       set_newActivePaneItem set_activePaneItemDestroySubscription set_activePaneItem].
  split; [done|]. split; [by apply swap_in_place|]. split; [|done].
  intros q Hq.
  change (items_of (remove p old
                      (add p new (indexOf old (items_of (workspace (env s)) p))
                         (workspace (env s)))) q
          = items_of (workspace (env s)) q).
  unfold remove, add.
  destruct (decide (new ∈ items_of (workspace (env s)) p)) as [Hin|Hin];
    unfold items_of; cbn [panes].
  - by rewrite list_lookup_alter_ne.
  - by rewrite !list_lookup_alter_ne.
Qed.

(** Replacing the tracked item by itself is no swap: the pane already
    holds the item, so nothing is added, and the removal then takes the
    item out of the only pane that held it. *)
Lemma replaced_by_itself_leaves_the_pane :
  let s := exec (replaceActivePaneItem (ItemEmpty (emptyPortalItem (this placeholder_shown))))
             placeholder_shown in
  activePaneItem (this s) = Some (ItemEmpty (emptyPortalItem (this placeholder_shown)))
  ∧ panes (workspace (env placeholder_shown))
    = [[ItemEmpty (emptyPortalItem (this placeholder_shown))]]
  ∧ panes (workspace (env s)) = [[]].
Proof. repeat split; by vm_compute. Qed.

End ListWorkspaceProperties.

(** ** The tracked observer is an invariant *)

Section Tracking.
Context {W : Type} `{Workspace W}.
Implicit Types s : State W.

Lemma observers_tracked_constructor pid (v : Env W) :
  observers v = [] → observers_tracked (constructor pid v).
Proof. intros Hv o. cbn. rewrite Hv. by intros ?%elem_of_nil. Qed.

Lemma observers_tracked_replaceActivePaneItem s item :
  observers_tracked s → observers_tracked (exec (replaceActivePaneItem item) s).
Proof.
  intros Ht. unfold exec. rewrite replaceActivePaneItem_unfold.
  rewrite (tracked_observers_removed s Ht).
  destruct (replaced_workspace _ _ _) as [w'|]; cbn [snd].
  - intros o. cbn. by intros ->%list_elem_of_singleton.
  - exact Ht.
Qed.

Lemma observers_tracked_setActiveEditorProxy s a :
  observers_tracked s → observers_tracked (exec (setActiveEditorProxy a) s).
Proof.
  intros Ht. destruct a as [ep|].
  - unfold exec. rewrite setActiveEditorProxy_unfold.
    destruct (resolve (this s) (next_ref (env s)) ep) as [[[eb b1] n1] calls] eqn:Hr.
    pose proof (resolve_frame _ _ _ _ _ _ _ Hr) as (_ & _ & _ & _ & _ & _ & Hsub & _).
    match goal with |- context [replaceActivePaneItem ?i ?s1] =>
      assert (Ht1 : observers_tracked s1)
        by (intros o Ho; cbn in *; rewrite Hsub; by apply Ht);
      pose proof (observers_tracked_replaceActivePaneItem s1 i Ht1) as Ht2;
      unfold exec in Ht2; destruct (replaceActivePaneItem i s1) as [[[]|e] s2] end;
      exact Ht2.
  - unfold setActiveEditorProxy. run_M.
    by apply observers_tracked_replaceActivePaneItem.
Qed.

Lemma observers_tracked_activations pid (v : Env W) calls :
  observers v = [] → observers_tracked (activations calls (constructor pid v)).
Proof.
  intros Hv. induction calls as [|a calls IH] using rev_ind.
  - by apply observers_tracked_constructor.
  - rewrite activations_snoc. by apply observers_tracked_setActiveEditorProxy.
Qed.

End Tracking.

(** ** The theorems at work on a concrete binding *)

Lemma placeholder_shown_in_pane : active_item_in_pane placeholder_shown.
Proof.
  intros old Hold. vm_compute in Hold. injection Hold as <-.
  exists 0. reflexivity.
Defined.

Lemma placeholder_shown_tracked : observers_tracked placeholder_shown.
Proof.
  apply (observers_tracked_activations "portal-1" ListWorkspace.fresh_env [None]).
  reflexivity.
Defined.

Lemma setActiveEditorProxy_displays_at_work :
  active_item_in_pane placeholder_shown
  ∧ outcome (setActiveEditorProxy (Some editor_proxy_1)) placeholder_shown = Return tt.
Proof.
  split; [exact placeholder_shown_in_pane|].
  exact (proj1 (setActiveEditorProxy_displays placeholder_shown (Some editor_proxy_1)
                  placeholder_shown_in_pane)).
Defined.

(** C1 fails on the code when two calls overlap.  On a new binding,
    [setActiveEditorProxy(null)] is called and waits at
    [await workspace.open]; [setActiveEditorProxy(editorProxy)] is called
    before that promise resolves and waits in turn.  When the first call
    goes on, line 163 reads [this.newActivePaneItem], which the second
    call has overwritten: the call that received null installs the
    editor.  When the second call goes on, [this.newActivePaneItem] is
    null: it sets the tracked item to null, disposes the subscription
    the first call has just made and raises on
    [this.activePaneItem.onDidDestroy].  In the end the call with the
    editor proxy has raised, the binding tracks no item and observes
    none, and the pane holds the placeholder next to the editor although
    the last call received a proxy. *)
Lemma overlapping_activations_track_nothing :
  let placeholder := ItemEmpty (emptyPortalItem (this fresh_binding)) in
  let eb := {| eb_ref := 4;
               editor := {| te_ref := 3; te_buffer := {| tb_ref := 1 |}; autoHeight := false |};
               isHost := false |} in
  let first := {| pending_item := placeholder; pending_binding := None |} in
  let second := {| pending_item := ItemEditor (editor eb); pending_binding := Some eb |} in
  let s1 := exec (setActiveEditorProxy_begin None) fresh_binding in
  let s2 := exec (setActiveEditorProxy_begin (Some editor_proxy_1)) s1 in
  let s3 := exec (setActiveEditorProxy_resume first) s2 in
  let s4 := exec (setActiveEditorProxy_resume second) s3 in
  outcome (setActiveEditorProxy_begin None) fresh_binding = Return (Some first)
  ∧ outcome (setActiveEditorProxy_begin (Some editor_proxy_1)) s1 = Return (Some second)
  ∧ getActivePaneItem (this s2) = Some (ItemEditor (editor eb))
  ∧ outcome (setActiveEditorProxy_resume first) s2 = Return tt
  ∧ activePaneItem (this s3) = Some (ItemEditor (editor eb))
  ∧ outcome (setActiveEditorProxy_resume second) s3
    = Throw (TypeError "Cannot read property 'onDidDestroy' of null")
  ∧ activePaneItem (this s4) = None
  ∧ getActivePaneItem (this s4) = None
  ∧ observers (env s4) = []
  ∧ ListWorkspace.panes (workspace (env s4)) = [[placeholder; ItemEditor (editor eb)]]
  ∧ EditorBinding_autoscrollToLastHostSelection eb ∉ trace (env s4).
Proof.
  cbn zeta. repeat split; try by vm_compute.
  intros Hin. vm_compute in Hin.
  repeat (apply elem_of_cons in Hin as [Hin|Hin]; [discriminate Hin|]).
  by apply elem_of_nil in Hin.
Qed.

(** The same claim fails without any overlap in a workspace whose
    [pane.addItem] ignores an item the pane already holds, as Atom's
    does.  A second [setActiveEditorProxy(null)] replaces the
    placeholder by itself: nothing is added, and [pane.removeItem] then
    takes the placeholder out of its pane, where the claim has it
    displayed.  The next call with a proxy finds no pane for the tracked
    placeholder and raises on [pane.getItems()]: the placeholder stays
    the tracked item and the editor is in no pane. *)
Lemma repeated_null_activation_loses_the_placeholder :
  let placeholder := ItemEmpty (emptyPortalItem (this fresh_binding)) in
  let s1 := activations [None] fresh_binding in
  let s2 := activations [None; None] fresh_binding in
  let s3 := exec (setActiveEditorProxy (Some editor_proxy_1)) s2 in
  ListWorkspace.panes (workspace (env s1)) = [[placeholder]]
  ∧ outcome (setActiveEditorProxy None) s1 = Return tt
  ∧ activePaneItem (this s2) = Some placeholder
  ∧ ListWorkspace.panes (workspace (env s2)) = [[]]
  ∧ outcome (setActiveEditorProxy (Some editor_proxy_1)) s2
    = Throw (TypeError "Cannot read property 'getItems' of undefined")
  ∧ activePaneItem (this s3) = Some placeholder
  ∧ ListWorkspace.panes (workspace (env s3)) = [[]].
Proof. cbn zeta. repeat split; by vm_compute. Qed.


Lemma dispose_repeats_teardown_witness :
  observers_tracked placeholder_shown
  ∧ count is_emitDidDispose (trace (env (exec dispose (exec dispose placeholder_shown))))
    = count is_emitDidDispose (trace (env placeholder_shown)) + 2.
Proof.
  split; [exact placeholder_shown_tracked|].
  pose proof (dispose_repeats_teardown placeholder_shown placeholder_shown_tracked) as Hd.
  cbn zeta in Hd. exact (proj2 (proj2 (proj2 (proj2 (proj2 (proj2 (proj2 (proj2 (proj2 (proj2 Hd)))))))))).
Defined.

Lemma replaceActivePaneItem_swaps_or_opens_at_work :
  let item := ItemEditor {| te_ref := 5; te_buffer := {| tb_ref := 4 |}; autoHeight := false |} in
  active_item_in_pane placeholder_shown
  ∧ observers_tracked placeholder_shown
  ∧ outcome (replaceActivePaneItem item) placeholder_shown = Return tt.
Proof.
  cbn zeta.
  split; [exact placeholder_shown_in_pane|].
  split; [exact placeholder_shown_tracked|].
  exact (proj1 (replaceActivePaneItem_swaps_or_opens placeholder_shown _
                  placeholder_shown_in_pane placeholder_shown_tracked)).
Defined.

(** C6 fails on the code when two calls overlap.  On a binding that has
    joined a portal and tracks no item, [replaceActivePaneItem(a)] calls
    [workspace.open(a)] and waits; [replaceActivePaneItem(b)] is called
    before that promise resolves and waits in turn.  The first call then
    installs [b], not [a] (line 163 reads [this.newActivePaneItem]), and
    registers the destroy observer on [b]; the second call sets the
    tracked item to null, disposes that observer and raises on
    [this.activePaneItem.onDidDestroy].  Both items are open in the
    pane, neither carries a destroy observer, and destroying either of
    them does not call [dispose] on the portal. *)
Lemma overlapping_replacements_observe_nothing :
  let a := ItemEmpty (emptyPortalItem (this joined_binding)) in
  let b := ItemEditor {| te_ref := 9; te_buffer := {| tb_ref := 8 |}; autoHeight := false |} in
  let d := {| sub_ref := 1; sub_item := b |} in
  let s1 := exec (replaceActivePaneItem_begin a) joined_binding in
  let s2 := exec (replaceActivePaneItem_begin b) s1 in
  let s3 := exec (replaceActivePaneItem_resume a) s2 in
  let s4 := exec (replaceActivePaneItem_resume b) s3 in
  portal (this joined_binding) = Some some_portal
  ∧ activePaneItem (this joined_binding) = None
  ∧ outcome (replaceActivePaneItem_begin a) joined_binding = Return true
  ∧ outcome (replaceActivePaneItem_begin b) s1 = Return true
  ∧ outcome (replaceActivePaneItem_resume a) s2 = Return tt
  ∧ activePaneItem (this s3) = Some b
  ∧ observers (env s3) = [d]
  ∧ outcome (replaceActivePaneItem_resume b) s3
    = Throw (TypeError "Cannot read property 'onDidDestroy' of null")
  ∧ activePaneItem (this s4) = None
  ∧ observers (env s4) = []
  ∧ ListWorkspace.panes (workspace (env s4)) = [[a; b]]
  ∧ drop (length (trace (env joined_binding))) (trace (env s4))
    = [PaneItem_onDidDestroy b d; Disposable_dispose d]
  ∧ drop (length (trace (env s4))) (trace (env (exec (item_destroy b) s4)))
    = [PaneItem_destroy b]
  ∧ drop (length (trace (env s4))) (trace (env (exec (item_destroy a) s4)))
    = [PaneItem_destroy a].
Proof. cbn zeta. repeat split; by vm_compute. Qed.

(** The same claim fails without any overlap once the tracked item is in
    no pane, which [replaceActivePaneItem] itself brings about when it
    is given the tracked item again in a workspace whose [pane.addItem]
    ignores an item the pane already holds, as Atom's does: the item is
    not added and then removed.  The next call finds no pane, raises on
    [pane.getItems()] and registers no observer on the new item, so
    destroying the new item does not leave the portal. *)
Lemma replacement_without_pane_observes_nothing :
  let old := ItemEmpty (emptyPortalItem (this joined_placeholder)) in
  let new := ItemEditor {| te_ref := 9; te_buffer := {| tb_ref := 8 |}; autoHeight := false |} in
  let s1 := exec (replaceActivePaneItem old) joined_placeholder in
  let s2 := exec (replaceActivePaneItem new) s1 in
  activePaneItem (this joined_placeholder) = Some old
  ∧ ListWorkspace.panes (workspace (env joined_placeholder)) = [[old]]
  ∧ outcome (replaceActivePaneItem old) joined_placeholder = Return tt
  ∧ ListWorkspace.panes (workspace (env s1)) = [[]]
  ∧ outcome (replaceActivePaneItem new) s1
    = Throw (TypeError "Cannot read property 'getItems' of undefined")
  ∧ activePaneItem (this s2) = Some old
  ∧ ListWorkspace.panes (workspace (env s2)) = [[]]
  ∧ trace (env s2) = trace (env s1)
  ∧ drop (length (trace (env s2))) (trace (env (exec (item_destroy new) s2)))
    = [PaneItem_destroy new].
Proof. cbn zeta. repeat split; by vm_compute. Qed.

(** * Further properties of the code *)

(** ** The item at hand while it is being installed *)

Section AtHand.
Context {W : Type} `{PaneActivation W}.
Implicit Types s : State W.

(** X1.  From the moment [replaceActivePaneItem(item)] has started,
    [getActivePaneItem()] answers [item], in whatever state the call
    was made.  With no item tracked the call waits at
    [await workspace.open]: the tracked item is still null,
    [newActivePaneItem] is [item] and nothing else has changed; when the
    call goes on with no other call in between, it returns with [item]
    opened in the workspace and tracked, and [newActivePaneItem] null
    again.  With an item tracked the call runs to its end at once
    ([item] tracked, [newActivePaneItem] null), or raises for want of a
    pane ([newActivePaneItem] still [item], the tracked item and all
    else as before).  Cut at the [await] and run without another call in
    between, the method is the uncut one. *)
Theorem getActivePaneItem_while_replacing s item :
  let s1 := exec (replaceActivePaneItem_begin item) s in
  getActivePaneItem (this s1) = Some item
  ∧ match outcome (replaceActivePaneItem_begin item) s with
    | Return true =>
        activePaneItem (this s) = None
        ∧ activePaneItem (this s1) = None
        ∧ newActivePaneItem (this s1) = Some item
        ∧ env s1 = env s
        ∧ let s2 := exec (replaceActivePaneItem_resume item) s1 in
          outcome (replaceActivePaneItem_resume item) s1 = Return tt
          ∧ getActivePaneItem (this s2) = Some item
          ∧ activePaneItem (this s2) = Some item
          ∧ newActivePaneItem (this s2) = None
          ∧ workspace (env s2) = workspace_open item (workspace (env s))
    | Return false =>
        (∃ old, activePaneItem (this s) = Some old)
        ∧ activePaneItem (this s1) = Some item
        ∧ newActivePaneItem (this s1) = None
    | Throw _ =>
        activePaneItem (this s1) = activePaneItem (this s)
        ∧ newActivePaneItem (this s1) = Some item
        ∧ env s1 = env s
    end
  ∧ replaceActivePaneItem_alone item s = replaceActivePaneItem item s.
Proof.
  cbn zeta. split; [|split; [|apply replaceActivePaneItem_cut]].
  - unfold exec. rewrite replaceActivePaneItem_begin_unfold.
    destruct (activePaneItem (this s)) as [old|]; [|done].
    rewrite replaceActivePaneItem_unfold.
    by destruct (replaced_workspace _ _ _) as [w'|].
  - unfold exec, outcome. rewrite replaceActivePaneItem_begin_unfold.
    destruct (activePaneItem (this s)) as [old|] eqn:Hold.
    + rewrite replaceActivePaneItem_unfold. unfold replaced_workspace. rewrite Hold.
      destruct (paneForItem _ _) as [pane|]; cbn; [|by rewrite Hold].
      split; [by exists old|done].
    + cbn [fst snd this env]. rewrite (replaceActivePaneItem_resume_unfold s item Hold).
      rewrite replaceActivePaneItem_unfold. unfold replaced_workspace. rewrite Hold.
      by cbn.
Qed.

Lemma activate_unfold s :
  activate s =
    (Return tt,
     Build_State (this s)
       (Build_Env
          (match getActivePaneItem (this s) with
           | Some item =>
               match paneForItem (workspace (env s)) item with
               | Some pane =>
                   pane_activate pane (pane_activateItem pane item (workspace (env s)))
               | None => workspace (env s)
               end
           | None => workspace (env s)
           end)
          (observers (env s)) (next_ref (env s)) (trace (env s)))).
Proof.
  destruct s as [b [w o n t]]. unfold activate. run_M.
  destruct (getActivePaneItem b) as [item|]; [|reflexivity].
  run_M. by destruct (paneForItem w item).
Qed.

(** X2.  [activate()] never raises and changes nothing but the
    workspace, whatever the state: no portal, no item, an item that no
    pane holds.  After [replaceActivePaneItem(item)], returned or raised,
    it is [item] that it activates, in the pane that holds [item] then,
    and it does nothing if no pane does. *)
Theorem activate_targets_item_at_hand s item :
  (outcome activate s = Return tt
   ∧ this (exec activate s) = this s
   ∧ observers (env (exec activate s)) = observers (env s)
   ∧ trace (env (exec activate s)) = trace (env s))
  ∧ let s1 := exec (replaceActivePaneItem item) s in
    workspace (env (exec activate s1)) =
      match paneForItem (workspace (env s1)) item with
      | Some pane => pane_activate pane (pane_activateItem pane item (workspace (env s1)))
      | None => workspace (env s1)
      end.
Proof.
  unfold exec, outcome. rewrite !activate_unfold. cbn [fst snd this env observers trace workspace].
  split; [done|].
  pose proof (replaceActivePaneItem_frame s item) as (_ & _ & _ & Hg & _).
  unfold exec in Hg. by rewrite Hg.
Qed.

End AtHand.

(** ** What a sequence of activations keeps *)

Section Keeping.
Context {W : Type} `{Workspace W}.
Implicit Types s : State W.

Lemma resolve_stable b n ep eb b1 n1 calls :
  resolve b n ep = (eb, b1, n1, calls) →
  editorBindingsByEditorProxy b ⊆ editorBindingsByEditorProxy b1
  ∧ bufferBindingsByBufferProxy b ⊆ bufferBindingsByBufferProxy b1
  ∧ n ≤ n1.
Proof.
  unfold resolve.
  destruct (editorBindingsByEditorProxy b !! ep_ref ep) as [eb0|] eqn:He.
  { intros [= <- <- <- <-]. done. }
  destruct (bufferBindingsByBufferProxy b !! bp_ref (bufferProxy ep)) as [bb|] eqn:Hb;
    intros [= <- <- <- <-]; cbn [editorBindingsByEditorProxy bufferBindingsByBufferProxy
      set_editorBindingsByEditorProxy set_bufferBindingsByBufferProxy].
  - split; [by apply insert_subseteq|]. split; [done|lia].
  - split; [by apply insert_subseteq|]. split; [by apply insert_subseteq|lia].
Qed.

(** What one activation, returned or raised, does to the maps, to the
    active editor binding and to the next free reference. *)
Lemma setActiveEditorProxy_keeps s a :
  let s' := exec (setActiveEditorProxy a) s in
  editorBindingsByEditorProxy (this s) ⊆ editorBindingsByEditorProxy (this s')
  ∧ bufferBindingsByBufferProxy (this s) ⊆ bufferBindingsByBufferProxy (this s')
  ∧ next_ref (env s) ≤ next_ref (env s')
  ∧ match a with
    | None =>
        activeEditorBinding (this s') = activeEditorBinding (this s)
        ∧ editorBindingsByEditorProxy (this s') = editorBindingsByEditorProxy (this s)
        ∧ bufferBindingsByBufferProxy (this s') = bufferBindingsByBufferProxy (this s)
    | Some ep =>
        ∃ eb, activeEditorBinding (this s') = Some eb
              ∧ editorBindingsByEditorProxy (this s') !! ep_ref ep = Some eb
    end.
Proof.
  cbn zeta. unfold exec. destruct a as [ep|].
  - rewrite setActiveEditorProxy_unfold.
    destruct (resolve (this s) (next_ref (env s)) ep) as [[[eb b1] n1] calls] eqn:Hr.
    pose proof (resolve_stable _ _ _ _ _ _ _ Hr) as (Hse & Hsb & Hn).
    pose proof (resolve_frame _ _ _ _ _ _ _ Hr) as (Hl & _).
    rewrite replaceActivePaneItem_unfold.
    destruct (replaced_workspace _ _ _) as [w'|]; cbn;
      (split; [done|]); (split; [done|]); (split; [lia|]); by exists eb.
  - unfold setActiveEditorProxy. run_M. rewrite replaceActivePaneItem_unfold.
    destruct (replaced_workspace _ _ _) as [w'|]; cbn;
      (split; [done|]); (split; [done|]); (split; [lia|]); done.
Qed.

(** X3.  Activations only add to the two maps: whatever sequence of
    [setActiveEditorProxy] calls follows, every proxy keeps the binding it
    has, calls that raise included. *)
Theorem activations_keep_bindings calls s :
  editorBindingsByEditorProxy (this s)
    ⊆ editorBindingsByEditorProxy (this (activations calls s))
  ∧ bufferBindingsByBufferProxy (this s)
      ⊆ bufferBindingsByBufferProxy (this (activations calls s)).
Proof.
  induction calls as [|a calls IH] using rev_ind; [done|].
  rewrite activations_snoc.
  pose proof (setActiveEditorProxy_keeps (activations calls s) a) as (He & Hb & _).
  destruct IH as [IHe IHb]. split; by etrans.
Qed.

Lemma last_proxy_snoc calls a :
  last_proxy (calls ++ [a]) = match a with Some ep => Some ep | None => last_proxy calls end.
Proof.
  unfold last_proxy. rewrite omap_app. destruct a as [ep|]; cbn.
  - by rewrite last_snoc.
  - by rewrite app_nil_r.
Qed.

Lemma activeEditorBinding_activations (pid : string) (v : Env W) calls :
  let s := activations calls (constructor pid v) in
  activeEditorBinding (this s) =
    match last_proxy calls with
    | Some ep => editorBindingsByEditorProxy (this s) !! ep_ref ep
    | None => None
    end
  ∧ match last_proxy calls with
    | Some ep => is_Some (editorBindingsByEditorProxy (this s) !! ep_ref ep)
    | None => True
    end.
Proof.
  cbn zeta. induction calls as [|a calls IH] using rev_ind; [done|].
  rewrite activations_snoc, last_proxy_snoc.
  pose proof (setActiveEditorProxy_keeps (activations calls (constructor pid v)) a)
    as (_ & _ & _ & Ha).
  destruct a as [ep|].
  - destruct Ha as (eb & -> & ->). by split.
  - destruct Ha as (-> & -> & _). exact IH.
Qed.

(** X4.  After any sequence of activations on a new binding, the active
    editor binding is the one the map holds for the last proxy that was
    activated; activations with null in between or afterwards do not
    clear it, and before the first proxy it is null. *)
Theorem activeEditorBinding_is_last_activated (pid : string) (v : Env W) calls :
  let s := activations calls (constructor pid v) in
  match last_proxy calls with
  | Some ep =>
      is_Some (activeEditorBinding (this s))
      ∧ activeEditorBinding (this s) = editorBindingsByEditorProxy (this s) !! ep_ref ep
  | None => activeEditorBinding (this s) = None
  end.
Proof.
  cbn zeta. pose proof (activeEditorBinding_activations pid v calls) as [Ha Hs].
  cbn zeta in Ha, Hs. destruct (last_proxy calls) as [ep|]; [|done].
  split; [by rewrite Ha|done].
Qed.

(** X5.  [toggleFollowHostCursorOnActiveEditorProxy] raises as long as
    no proxy has been activated.  Once one has, it returns, also while the
    placeholder is shown, and flips the flag of the editor binding of the
    last proxy that was activated and of no other binding; toggling again
    restores every flag. *)
Theorem toggle_follows_last_activated (pid : string) (v : Env W) calls (f : Following) :
  let s := activations calls (constructor pid v) in
  match last_proxy calls with
  | None =>
      ∃ m, toggleFollowHostCursorOnActiveEditorProxy (this s) f = Throw (TypeError m)
  | Some ep =>
      ∃ eb f',
        editorBindingsByEditorProxy (this s) !! ep_ref ep = Some eb
        ∧ toggleFollowHostCursorOnActiveEditorProxy (this s) f = Return f'
        ∧ f' eb = negb (f eb)
        ∧ (∀ x, x ≠ eb → f' x = f x)
        ∧ ∃ f'', toggleFollowHostCursorOnActiveEditorProxy (this s) f' = Return f''
                 ∧ ∀ x, f'' x = f x
  end.
Proof.
  cbn zeta. pose proof (activeEditorBinding_activations pid v calls) as [Ha Hs].
  cbn zeta in Ha, Hs. unfold toggleFollowHostCursorOnActiveEditorProxy. rewrite Ha.
  destruct (last_proxy calls) as [ep|]; [|by eauto].
  destruct Hs as [eb Heb]. rewrite Heb.
  exists eb, (setFollowHostCursor eb (negb (isFollowingHostCursor eb f)) f).
  unfold setFollowHostCursor, isFollowingHostCursor.
  split; [done|]. split; [done|]. split; [by rewrite decide_True|].
  split; [intros x Hx; by rewrite decide_False|].
  eexists. split; [done|]. intros x. cbn.
  destruct (decide (x = eb)) as [->|Hx]; [|done].
  by rewrite decide_True, negb_involutive.
Qed.

End Keeping.

(** ** What every sequence of calls keeps *)

Section Histories.
Context {W : Type} `{Workspace W}.
Implicit Types s : State W.

Lemma settled_refl s : settled s s.
Proof. by repeat split. Qed.

Lemma settled_trans s1 s2 s3 : settled s1 s2 → settled s2 s3 → settled s1 s3.
Proof.
  intros (He & Hb & Hn & Hs & Ho) (He' & Hb' & Hn' & Hs' & Ho').
  repeat split; try (by etrans); congruence.
Qed.

Lemma settled_bind {A B} (m : M W A) (k : A → M W B) :
  (∀ s, settled s (exec m s)) →
  (∀ a s, settled s (exec (k a) s)) →
  ∀ s, settled s (exec (m ≫= k) s).
Proof.
  intros Hm Hk s. specialize (Hm s). unfold exec in *.
  unfold mbind, M_bind, bind. destruct (m s) as [[a|e] s1]; cbn in *; [|done].
  eapply settled_trans; [exact Hm|apply Hk].
Qed.

Lemma settled_same s s' :
  this s' = this s → next_ref (env s') = next_ref (env s) →
  observers (env s') = observers (env s) → settled s s'.
Proof. intros Ht Hn Ho. unfold settled. by rewrite Ht, Hn, Ho. Qed.

Lemma settled_call e s : settled s (exec (call e) s).
Proof. by apply settled_same. Qed.

Lemma settled_leave s : settled s (exec leave s).
Proof.
  unfold leave. run_M. destruct (portal (this s)); by apply settled_same.
Qed.

Lemma settled_for_each_leave {A} (l : list A) s :
  settled s (exec (for_each l (λ _, leave)) s).
Proof.
  revert s. induction l as [|x l IH]; intros s; [apply settled_refl|].
  cbn [for_each]. apply settled_bind; [apply settled_leave|]. intros _. apply IH.
Qed.

Lemma settled_disposable_dispose d s : settled s (exec (disposable_dispose d) s).
Proof.
  unfold disposable_dispose. run_M. repeat split; try done. apply sublist_filter.
Qed.

Lemma settled_item_destroy item s : settled s (exec (item_destroy item) s).
Proof.
  destruct s as [b [w o n t]]. unfold item_destroy. run_M.
  match goal with |- context [for_each ?l ?f ?s0] =>
    pose proof (settled_for_each_leave l s0) as Hf; unfold exec in Hf;
    destruct (for_each l f s0) as [[[]|e] s1] end;
    cbn [snd] in *;
    (eapply settled_trans; [|exact Hf]); repeat split; try done; apply sublist_filter.
Qed.

Lemma settled_dispose s : settled s (exec dispose s).
Proof.
  unfold dispose. apply settled_bind; [intros; apply settled_refl|]. intros b.
  apply settled_bind.
  { intros s0. destruct (activePaneItemDestroySubscription b);
      [apply settled_disposable_dispose|apply settled_refl]. }
  intros _. apply settled_bind.
  { intros s0. destruct (activePaneItem b); [apply settled_item_destroy|apply settled_refl]. }
  intros _. apply settled_bind; [intros; apply settled_item_destroy|].
  intros _. apply settled_call.
Qed.

Lemma settled_site_notification verb siteId s :
  settled s (exec (site_notification verb siteId) s).
Proof.
  unfold site_notification. run_M.
  destruct (portal (this s)) as [p|]; [|by apply settled_same].
  destruct (getSiteIdentity p 1); [|by apply settled_same].
  destruct (getSiteIdentity p siteId); by apply settled_same.
Qed.

(** Every call but [setActiveEditorProxy] adds nothing. *)
Lemma perform_settled m s :
  (∀ a, m ≠ call_setActiveEditorProxy a) → settled s (perform m s).
Proof.
  intros Hm. destruct m; cbn [perform].
  - unfold exec. rewrite initialize_unfold. cbn. repeat split; try done.
    all: by destruct r.
  - by destruct (Hm editorProxy).
  - apply settled_site_notification.
  - apply settled_site_notification.
  - unfold hostDidClosePortal. run_M. by repeat split.
  - unfold hostDidLoseConnection. run_M. by repeat split.
  - apply settled_leave.
  - apply settled_dispose.
  - unfold bufferBinding_didDispose. run_M. repeat split; try done. apply delete_subseteq.
  - unfold editorBinding_didDispose. run_M. repeat split; try done. apply delete_subseteq.
  - apply settled_item_destroy.
Qed.

Lemma history_snoc ms m s : history (ms ++ [m]) s = perform m (history ms s).
Proof. unfold history. by rewrite fold_left_app. Qed.

Lemma one_observer_settled s s' : settled s s' → one_observer s → one_observer s'.
Proof.
  intros (_ & _ & _ & Hs & Ho) [Hnil|(d & Hd & Hsub)]; unfold one_observer.
  - rewrite Hnil in Ho. left. by apply sublist_nil_r.
  - rewrite Hd in Ho. apply sublist_cons_r in Ho as [Ho|(l' & -> & Ho)].
    + left. by apply sublist_nil_r.
    + apply sublist_nil_r in Ho as ->. right. exists d. split; [done|congruence].
Qed.

Lemma one_observer_removed s :
  one_observer s → old_subscription_removed (this s) (observers (env s)) = [].
Proof.
  unfold old_subscription_removed. intros [Hnil|(d & Hd & Hsub)].
  - rewrite Hnil. by destruct (activePaneItemDestroySubscription (this s)).
  - rewrite Hd, Hsub. rewrite filter_cons_False; [done|]. intros Hne. by apply Hne.
Qed.

Lemma one_observer_replaceActivePaneItem s item :
  one_observer s → one_observer (exec (replaceActivePaneItem item) s).
Proof.
  intros Ho. unfold exec. rewrite replaceActivePaneItem_unfold.
  rewrite (one_observer_removed s Ho).
  destruct (replaced_workspace _ _ _) as [w'|]; cbn [snd]; [|exact Ho].
  right. by eexists.
Qed.

Lemma one_observer_setActiveEditorProxy s a :
  one_observer s → one_observer (exec (setActiveEditorProxy a) s).
Proof.
  intros Ho. destruct a as [ep|].
  - unfold exec. rewrite setActiveEditorProxy_unfold.
    destruct (resolve (this s) (next_ref (env s)) ep) as [[[eb b1] n1] calls] eqn:Hr.
    pose proof (resolve_frame _ _ _ _ _ _ _ Hr) as (_ & _ & _ & _ & _ & _ & Hsub & _).
    match goal with |- context [replaceActivePaneItem ?i ?s1] =>
      assert (Ho1 : one_observer s1)
        by (unfold one_observer in *; cbn; rewrite Hsub; exact Ho);
      pose proof (one_observer_replaceActivePaneItem s1 i Ho1) as Ho2;
      unfold exec in Ho2; destruct (replaceActivePaneItem i s1) as [[[]|e] s2] end;
      exact Ho2.
  - unfold setActiveEditorProxy. run_M. by apply one_observer_replaceActivePaneItem.
Qed.

(** X6.  A binding made where no observer of its own is live never has
    more than one destroy observer alive, and a live one is the one kept
    in [activePaneItemDestroySubscription]: this holds after every
    sequence of calls on its methods, of [didDispose] callbacks and of
    pane items being destroyed, calls that raise included. *)
Theorem history_one_observer (pid : string) (v : Env W) ms :
  observers v = [] →
  one_observer (history ms (constructor pid v))
  ∧ length (observers (env (history ms (constructor pid v)))) ≤ 1.
Proof.
  intros Hv.
  assert (Hone : one_observer (history ms (constructor pid v))).
  { induction ms as [|m ms IH] using rev_ind; [by left|].
    rewrite history_snoc. destruct m;
      try (eapply one_observer_settled; [apply perform_settled; by intros|exact IH]).
    by apply one_observer_setActiveEditorProxy. }
  split; [done|].
  destruct Hone as [->|(d & -> & _)]; cbn; lia.
Qed.

End Histories.

(** ** One view per proxy, one buffer per buffer proxy *)

Section Views.
Context {W : Type} `{Workspace W}.
Implicit Types s : State W.

Lemma allocated_weaken s s' :
  editorBindingsByEditorProxy (this s') ⊆ editorBindingsByEditorProxy (this s) →
  bufferBindingsByBufferProxy (this s') ⊆ bufferBindingsByBufferProxy (this s) →
  next_ref (env s) ≤ next_ref (env s') →
  references_allocated s ∧ views_distinct s →
  references_allocated s' ∧ views_distinct s'.
Proof.
  intros He Hb Hn [[Re Rb] [De Db]]. repeat split.
  - pose proof (Re k eb (lookup_weaken _ _ _ _ H0 He)). lia.
  - pose proof (Re k eb (lookup_weaken _ _ _ _ H0 He)). lia.
  - pose proof (Rb k bb (lookup_weaken _ _ _ _ H0 Hb)). lia.
  - pose proof (Rb k bb (lookup_weaken _ _ _ _ H0 Hb)). lia.
  - intros k1 k2 eb1 eb2 H1 H2. eapply De; by eapply lookup_weaken.
  - intros k1 k2 bb1 bb2 H1 H2. eapply Db; by eapply lookup_weaken.
Qed.

Lemma resolve_allocated b n ep eb b1 n1 calls (v v1 : Env W) :
  resolve b n ep = (eb, b1, n1, calls) →
  next_ref v = n → next_ref v1 = n1 →
  references_allocated (Build_State b v) ∧ views_distinct (Build_State b v) →
  references_allocated (Build_State b1 v1) ∧ views_distinct (Build_State b1 v1).
Proof.
  unfold resolve, references_allocated, views_distinct. cbn [this env].
  intros Hr Hv Hv1 [[Re Rb] [De Db]]. rewrite Hv in Re, Rb. rewrite Hv1. clear Hv Hv1.
  destruct (editorBindingsByEditorProxy b !! ep_ref ep) as [eb0|] eqn:He.
  { injection Hr as <- <- <- <-. done. }
  destruct (bufferBindingsByBufferProxy b !! bp_ref (bufferProxy ep)) as [bb|] eqn:Hb;
    injection Hr as <- <- <- <-;
    cbn [editorBindingsByEditorProxy bufferBindingsByBufferProxy
           set_editorBindingsByEditorProxy set_bufferBindingsByBufferProxy].
  - repeat split.
    + apply lookup_insert_Some in H0 as [[_ <-]|[_ Hl]]; cbn; [lia|].
      pose proof (Re _ _ Hl). lia.
    + apply lookup_insert_Some in H0 as [[_ <-]|[_ Hl]]; cbn; [lia|].
      pose proof (Re _ _ Hl). lia.
    + pose proof (Rb _ _ H0). lia.
    + pose proof (Rb _ _ H0). lia.
    + intros k1 k2 eb1 eb2 H1 H2 Heq.
      apply lookup_insert_Some in H1 as [[<- <-]|[Hk1 H1]];
        apply lookup_insert_Some in H2 as [[<- <-]|[Hk2 H2]]; cbn in Heq.
      * done.
      * pose proof (Re _ _ H2). lia.
      * pose proof (Re _ _ H1). lia.
      * by eapply De.
    + exact Db.
  - repeat split.
    + apply lookup_insert_Some in H0 as [[_ <-]|[_ Hl]]; cbn; [lia|].
      pose proof (Re _ _ Hl). lia.
    + apply lookup_insert_Some in H0 as [[_ <-]|[_ Hl]]; cbn; [lia|].
      pose proof (Re _ _ Hl). lia.
    + apply lookup_insert_Some in H0 as [[_ <-]|[_ Hl]]; cbn; [lia|].
      pose proof (Rb _ _ Hl). lia.
    + apply lookup_insert_Some in H0 as [[_ <-]|[_ Hl]]; cbn; [lia|].
      pose proof (Rb _ _ Hl). lia.
    + intros k1 k2 eb1 eb2 H1 H2 Heq.
      apply lookup_insert_Some in H1 as [[<- <-]|[Hk1 H1]];
        apply lookup_insert_Some in H2 as [[<- <-]|[Hk2 H2]]; cbn in Heq.
      * done.
      * pose proof (Re _ _ H2). lia.
      * pose proof (Re _ _ H1). lia.
      * by eapply De.
    + intros k1 k2 bb1 bb2 H1 H2 Heq.
      apply lookup_insert_Some in H1 as [[<- <-]|[Hk1 H1]];
        apply lookup_insert_Some in H2 as [[<- <-]|[Hk2 H2]]; cbn in Heq.
      * done.
      * pose proof (Rb _ _ H2). lia.
      * pose proof (Rb _ _ H1). lia.
      * by eapply Db.
Qed.

Lemma allocated_setActiveEditorProxy s a :
  references_allocated s ∧ views_distinct s →
  references_allocated (exec (setActiveEditorProxy a) s)
  ∧ views_distinct (exec (setActiveEditorProxy a) s).
Proof.
  intros Hs. destruct a as [ep|].
  - unfold exec. rewrite setActiveEditorProxy_unfold.
    destruct (resolve (this s) (next_ref (env s)) ep) as [[[eb b1] n1] calls] eqn:Hr.
    match goal with |- context [replaceActivePaneItem ?i ?s1] =>
      assert (Hs1 : references_allocated s1 ∧ views_distinct s1);
      [|pose proof (replaceActivePaneItem_unfold s1 i) as Hu;
        destruct (replaced_workspace (this s1) (workspace (env s1)) i) as [w'|];
        rewrite Hu; cbn [snd];
        (eapply allocated_weaken; [| | |exact Hs1]); cbn; done || lia] end.
    destruct s as [b v].
    pose proof (resolve_allocated b (next_ref v) ep eb b1 n1 calls v
                  (Build_Env (workspace v) (observers v) n1 (trace v ++ calls))
                  Hr eq_refl eq_refl Hs) as Hs1.
    exact Hs1.
  - unfold setActiveEditorProxy. run_M. rewrite replaceActivePaneItem_unfold.
    destruct (replaced_workspace _ _ _) as [w'|]; cbn [snd];
      (eapply allocated_weaken; [| | |exact Hs]); cbn; done || lia.
Qed.

(** X7.  After every sequence of calls on a new binding, two different
    editor proxies of the map hold two different text editors, and two
    different buffer proxies two different text buffers: no view and no
    document is ever bound twice, whatever has been disposed and
    re-activated in between. *)
Theorem history_views_distinct (pid : string) (v : Env W) ms :
  views_distinct (history ms (constructor pid v))
  ∧ references_allocated (history ms (constructor pid v)).
Proof.
  assert (Hinv : references_allocated (history ms (constructor pid v))
                 ∧ views_distinct (history ms (constructor pid v))).
  { induction ms as [|m ms IH] using rev_ind.
    - unfold references_allocated, views_distinct, history.
      cbn [fold_left this constructor editorBindingsByEditorProxy bufferBindingsByBufferProxy].
      repeat split; intros;
        by match goal with Hl : _ !! _ = Some _ |- _ => rewrite lookup_empty in Hl end.
    - rewrite history_snoc. destruct m;
        try (match goal with |- context [perform ?m ?s0] =>
               pose proof (perform_settled m s0 ltac:(by intros)) as (He & Hb & Hn & _)
             end;
             eapply allocated_weaken; [exact He|exact Hb|lia|exact IH]).
      by apply allocated_setActiveEditorProxy. }
  by destruct Hinv.
Qed.

Lemma setActiveEditorProxy_new s ep :
  editorBindingsByEditorProxy (this s) !! ep_ref ep = None →
  ∃ eb bb,
    editorBindingsByEditorProxy (this (exec (setActiveEditorProxy (Some ep)) s)) !! ep_ref ep
      = Some eb
    ∧ bufferBindingsByBufferProxy (this (exec (setActiveEditorProxy (Some ep)) s))
        !! bp_ref (bufferProxy ep) = Some bb
    ∧ te_buffer (editor eb) = buffer bb.
Proof.
  intros Hnone. unfold exec. rewrite setActiveEditorProxy_unfold.
  unfold resolve. rewrite Hnone.
  destruct (bufferBindingsByBufferProxy (this s) !! bp_ref (bufferProxy ep)) as [bb|] eqn:Hb.
  - rewrite replaceActivePaneItem_unfold.
    destruct (replaced_workspace _ _ _) as [w'|]; cbn;
      eexists _, bb; by rewrite lookup_insert_eq.
  - rewrite replaceActivePaneItem_unfold.
    destruct (replaced_workspace _ _ _) as [w'|]; cbn;
      eexists _, _; by rewrite !lookup_insert_eq.
Qed.

Lemma activations_buffers (pid : string) (v : Env W) calls :
  one_object_per_reference calls →
  ∀ ep, Some ep ∈ calls →
    ∃ eb bb,
      editorBindingsByEditorProxy (this (activations calls (constructor pid v))) !! ep_ref ep
        = Some eb
      ∧ bufferBindingsByBufferProxy (this (activations calls (constructor pid v)))
          !! bp_ref (bufferProxy ep) = Some bb
      ∧ te_buffer (editor eb) = buffer bb.
Proof.
  induction calls as [|a calls IH] using rev_ind; intros Hone ep Hin.
  { by apply elem_of_nil in Hin. }
  assert (Hone' : one_object_per_reference calls).
  { intros e1 e2 H1 H2. apply Hone; apply elem_of_app; by left. }
  specialize (IH Hone').
  rewrite activations_snoc.
  set (s := activations calls (constructor pid v)) in *.
  pose proof (setActiveEditorProxy_keeps s a) as (He & Hb & _).
  assert (Hold : ∀ ep', Some ep' ∈ calls →
            ∃ eb bb,
              editorBindingsByEditorProxy (this (exec (setActiveEditorProxy a) s)) !! ep_ref ep'
                = Some eb
              ∧ bufferBindingsByBufferProxy (this (exec (setActiveEditorProxy a) s))
                  !! bp_ref (bufferProxy ep') = Some bb
              ∧ te_buffer (editor eb) = buffer bb).
  { intros ep' Hin'. destruct (IH ep' Hin') as (eb & bb & H1 & H2 & H3).
    exists eb, bb. split; [by eapply lookup_weaken|]. split; [by eapply lookup_weaken|done]. }
  apply elem_of_app in Hin as [Hin|Hin]; [by apply Hold|].
  apply list_elem_of_singleton in Hin as <-.
  destruct (editorBindingsByEditorProxy (this s) !! ep_ref ep) as [eb0|] eqn:Hl.
  - destruct (activations_invariant pid v calls) as [_ Hkeys].
    destruct (proj1 (Hkeys (ep_ref ep))) as (ep' & Hin' & Href); [by eexists|].
    assert (ep = ep') as <-.
    { apply Hone; [apply elem_of_app; right; by left|apply elem_of_app; by left|done]. }
    by apply Hold.
  - by apply setActiveEditorProxy_new.
Qed.

(** X8.  When every reference among the activated proxies stands for one
    proxy, two activated editor proxies on the same buffer proxy have
    editors on the same text buffer, the one of the buffer binding that
    the buffer map holds for that buffer proxy. *)
Theorem editors_share_the_buffer (pid : string) (v : Env W) calls ep1 ep2 :
  one_object_per_reference calls →
  Some ep1 ∈ calls →
  Some ep2 ∈ calls →
  bufferProxy ep1 = bufferProxy ep2 →
  let s := activations calls (constructor pid v) in
  ∃ eb1 eb2 bb,
    editorBindingsByEditorProxy (this s) !! ep_ref ep1 = Some eb1
    ∧ editorBindingsByEditorProxy (this s) !! ep_ref ep2 = Some eb2
    ∧ bufferBindingsByBufferProxy (this s) !! bp_ref (bufferProxy ep1) = Some bb
    ∧ te_buffer (editor eb1) = buffer bb
    ∧ te_buffer (editor eb2) = buffer bb.
Proof.
  intros Hone H1 H2 Hbp. cbn zeta.
  destruct (activations_buffers pid v calls Hone ep1 H1) as (eb1 & bb1 & He1 & Hb1 & Ht1).
  destruct (activations_buffers pid v calls Hone ep2 H2) as (eb2 & bb2 & He2 & Hb2 & Ht2).
  exists eb1, eb2, bb1. rewrite <- Hbp in Hb2.
  assert (bb2 = bb1) as -> by congruence. done.
Qed.

End Views.

(** ** Disposed bindings and detached views *)

(** Appends nested to the left, moved to the right. *)
Ltac reassoc :=
  repeat match goal with
         | |- context [(?a ++ ?b) ++ ?c] => rewrite <- (app_assoc a b c)
         end.

Section Detaching.
Context {W : Type} `{Workspace W}.
Implicit Types s : State W.

(** X9.  The [didDispose] callback of an editor binding takes the proxy
    out of the editor map and touches nothing else.  If the proxy is
    activated again while the buffer map still holds its buffer proxy, a
    new text editor and a new editor binding are constructed, with the
    next free references, on the text buffer of the buffer binding that
    is there; no text buffer and no buffer binding are constructed. *)
Theorem editor_disposed_then_reactivated s ep bb :
  bufferBindingsByBufferProxy (this s) !! bp_ref (bufferProxy ep) = Some bb →
  let s1 := exec (editorBinding_didDispose ep) s in
  let s2 := exec (setActiveEditorProxy (Some ep)) s1 in
  let ed := {| te_ref := next_ref (env s); te_buffer := buffer bb; autoHeight := false |} in
  let eb := {| eb_ref := S (next_ref (env s)); editor := ed; isHost := false |} in
  editorBindingsByEditorProxy (this s1) = delete (ep_ref ep) (editorBindingsByEditorProxy (this s))
  ∧ bufferBindingsByBufferProxy (this s1) = bufferBindingsByBufferProxy (this s)
  ∧ env s1 = env s
  ∧ editorBindingsByEditorProxy (this s2)
    = <[ep_ref ep := eb]> (editorBindingsByEditorProxy (this s))
  ∧ bufferBindingsByBufferProxy (this s2) = bufferBindingsByBufferProxy (this s)
  ∧ activeEditorBinding (this s2) = Some eb
  ∧ getActivePaneItem (this s2) = Some (ItemEditor ed)
  ∧ ∃ added, trace (env s2) = trace (env s) ++ added
             ∧ filter (λ e, is_construction e = true) added
               = [new_TextEditor ed; new_EditorBinding eb].
Proof.
  intros Hbb. cbn zeta.
  destruct s as [b [w o n t]]. cbn [this env next_ref] in *.
  unfold exec at 2 3 4. unfold editorBinding_didDispose at 1 2 3. run_M.
  repeat (split; [done|]).
  unfold exec, editorBinding_didDispose. run_M.
  rewrite setActiveEditorProxy_unfold. unfold resolve.
  cbn [this env next_ref editorBindingsByEditorProxy bufferBindingsByBufferProxy
         set_editorBindingsByEditorProxy workspace observers trace].
  rewrite lookup_delete_eq, Hbb.
  rewrite replaceActivePaneItem_unfold.
  destruct (replaced_workspace _ _ _) as [w'|];
    cbn [fst snd this env trace editorBindingsByEditorProxy bufferBindingsByBufferProxy
           set_editorBindingsByEditorProxy set_activeEditorBinding set_newActivePaneItem
           set_activePaneItemDestroySubscription set_activePaneItem activeEditorBinding
           getActivePaneItem newActivePaneItem activePaneItem];
    rewrite insert_delete_eq; repeat (split; [done|]).
  - eexists. reassoc. split; [reflexivity|].
    unfold old_subscription_calls. cbn [activePaneItemDestroySubscription set_activeEditorBinding
      set_editorBindingsByEditorProxy].
    by destruct (activePaneItemDestroySubscription b).
  - eexists. reassoc. split; [reflexivity|]. reflexivity.
Qed.

(** X10.  After the [didDispose] callback of a buffer binding, activating
    an editor proxy on that buffer proxy depends on the editor map alone.
    A proxy that still has its editor binding gets that binding and its
    editor back: nothing is constructed and the buffer map stays without
    the buffer proxy.  A proxy without one gets a text buffer and a buffer
    binding constructed anew, with the next free references, and its new
    editor on that buffer. *)
Theorem buffer_disposed_then_activated s ep :
  let s1 := exec (bufferBinding_didDispose (bufferProxy ep)) s in
  let s2 := exec (setActiveEditorProxy (Some ep)) s1 in
  s1 = Build_State
         (set_bufferBindingsByBufferProxy
            (delete (bp_ref (bufferProxy ep)) (bufferBindingsByBufferProxy (this s))) (this s))
         (env s)
  ∧ match editorBindingsByEditorProxy (this s) !! ep_ref ep with
    | Some eb =>
        editorBindingsByEditorProxy (this s2) = editorBindingsByEditorProxy (this s)
        ∧ bufferBindingsByBufferProxy (this s2) !! bp_ref (bufferProxy ep) = None
        ∧ activeEditorBinding (this s2) = Some eb
        ∧ getActivePaneItem (this s2) = Some (ItemEditor (editor eb))
        ∧ count is_construction (trace (env s2)) = count is_construction (trace (env s))
    | None =>
        let buf := {| tb_ref := next_ref (env s) |} in
        let bb := {| bb_ref := S (next_ref (env s)); buffer := buf |} in
        ∃ eb,
          editorBindingsByEditorProxy (this s2) !! ep_ref ep = Some eb
          ∧ bufferBindingsByBufferProxy (this s2) !! bp_ref (bufferProxy ep) = Some bb
          ∧ te_buffer (editor eb) = buf
          ∧ activeEditorBinding (this s2) = Some eb
    end.
Proof.
  cbn zeta. destruct s as [b [w o n t]]. cbn [this env next_ref trace].
  unfold exec at 2 3 4 5 6 7 8 9 10. unfold bufferBinding_didDispose. run_M.
  split; [done|]. unfold exec. rewrite setActiveEditorProxy_unfold. unfold resolve.
  cbn [this env next_ref editorBindingsByEditorProxy bufferBindingsByBufferProxy
         set_bufferBindingsByBufferProxy workspace observers trace].
  destruct (editorBindingsByEditorProxy b !! ep_ref ep) as [eb|] eqn:He.
  - rewrite replaceActivePaneItem_unfold.
    destruct (replaced_workspace _ _ _) as [w'|];
      cbn [fst snd this env trace editorBindingsByEditorProxy bufferBindingsByBufferProxy
             set_bufferBindingsByBufferProxy set_activeEditorBinding set_newActivePaneItem
             set_activePaneItemDestroySubscription set_activePaneItem activeEditorBinding
             getActivePaneItem newActivePaneItem activePaneItem];
      rewrite lookup_delete_eq; repeat (split; [done|]);
      rewrite !count_app.
    + unfold old_subscription_calls.
      cbn [activePaneItemDestroySubscription set_activeEditorBinding
             set_bufferBindingsByBufferProxy].
      destruct (activePaneItemDestroySubscription b);
        change (count is_construction []) with 0;
        rewrite ?count_app; cbn; repeat case_decide; try done; cbn; lia.
    + change (count is_construction []) with 0. lia.
  - rewrite lookup_delete_eq. rewrite replaceActivePaneItem_unfold.
    destruct (replaced_workspace _ _ _) as [w'|];
      cbn [fst snd this env trace editorBindingsByEditorProxy bufferBindingsByBufferProxy
             set_bufferBindingsByBufferProxy set_activeEditorBinding set_newActivePaneItem
             set_activePaneItemDestroySubscription set_activePaneItem activeEditorBinding
             set_editorBindingsByEditorProxy];
      eexists; rewrite !lookup_insert_eq; done.
Qed.

(** After [hostDidClosePortal] or [hostDidLoseConnection], [dispose]
    returns and its only [destroy] is the one on the placeholder,
    whatever item was tracked before (when that was the placeholder, it
    is the placeholder that is destroyed, once); it still disposes the
    stored subscription and fires [didDispose]. *)
Lemma dispose_after_host_callback s :
  observers_tracked s →
  let closed := exec hostDidClosePortal s in
  let lost := exec hostDidLoseConnection s in
  let teardown :=
    old_subscription_calls (this s)
    ++ [PaneItem_destroy (ItemEmpty (emptyPortalItem (this s))); emitDidDispose] in
  outcome dispose closed = Return tt
  ∧ outcome dispose lost = Return tt
  ∧ trace (env (exec dispose closed)) = trace (env closed) ++ teardown
  ∧ trace (env (exec dispose lost)) = trace (env lost) ++ teardown
  ∧ filter (λ e, is_PaneItem_destroy e = true) teardown
    = [PaneItem_destroy (ItemEmpty (emptyPortalItem (this s)))]
  ∧ observers (env (exec dispose closed)) = []
  ∧ observers (env (exec dispose lost)) = [].
Proof.
  intros Ht. cbn zeta. pose proof (tracked_observers_removed s Ht) as Ho.
  destruct s as [b [w o n t]]. cbn [this env observers] in Ho.
  unfold exec, outcome, hostDidClosePortal, hostDidLoseConnection. run_M.
  rewrite !dispose_unfold by exact Ho.
  unfold dispose_calls, old_subscription_calls. cbn.
  repeat split; try done.
  by destruct (activePaneItemDestroySubscription b).
Qed.

(** X11.  An editor that the host's closing or the lost connection has
    detached is not destroyed by [dispose].  When the binding tracks the
    editor [e], [dispose] calls [destroy] on it; after
    [hostDidClosePortal] or [hostDidLoseConnection], [dispose] returns
    without a [destroy] on [e]: its only [destroy] is the one on the
    placeholder.  It still disposes the stored subscription and fires
    [didDispose], and no destroy observer is left alive. *)
Theorem detached_editor_survives_dispose s e :
  observers_tracked s →
  activePaneItem (this s) = Some (ItemEditor e) →
  let closed := exec hostDidClosePortal s in
  let lost := exec hostDidLoseConnection s in
  let teardown :=
    old_subscription_calls (this s)
    ++ [PaneItem_destroy (ItemEmpty (emptyPortalItem (this s))); emitDidDispose] in
  outcome dispose closed = Return tt
  ∧ outcome dispose lost = Return tt
  ∧ trace (env (exec dispose closed)) = trace (env closed) ++ teardown
  ∧ trace (env (exec dispose lost)) = trace (env lost) ++ teardown
  ∧ (PaneItem_destroy (ItemEditor e) ∉ teardown)
  ∧ (∀ item, PaneItem_destroy item ∈ teardown
             → item = ItemEmpty (emptyPortalItem (this s)))
  ∧ trace (env (exec dispose s)) = trace (env s) ++ dispose_calls (this s)
  ∧ PaneItem_destroy (ItemEditor e) ∈ dispose_calls (this s)
  ∧ observers (env (exec dispose closed)) = []
  ∧ observers (env (exec dispose lost)) = [].
Proof.
  intros Ht He. cbn zeta.
  pose proof (dispose_after_host_callback s Ht) as (Hc & Hl & Htc & Htl & _ & Hoc & Hol).
  cbn zeta in *.
  assert (Honly : ∀ item,
            PaneItem_destroy item
            ∈ old_subscription_calls (this s)
              ++ [PaneItem_destroy (ItemEmpty (emptyPortalItem (this s))); emitDidDispose]
            → item = ItemEmpty (emptyPortalItem (this s))).
  { intros item [Hin|Hin]%elem_of_app.
    - unfold old_subscription_calls in Hin.
      destruct (activePaneItemDestroySubscription (this s)).
      + apply list_elem_of_singleton in Hin. discriminate Hin.
      + by apply elem_of_nil in Hin.
    - apply elem_of_cons in Hin as [Hin|Hin].
      + by injection Hin.
      + apply list_elem_of_singleton in Hin. discriminate Hin. }
  repeat (split; [done|]).
  split.
  { intros Hin. by specialize (Honly _ Hin). }
  split; [exact Honly|].
  pose proof (tracked_observers_removed s Ht) as Ho.
  destruct s as [b [w o n t]]. cbn [this env observers trace] in *.
  unfold exec. rewrite dispose_unfold by exact Ho. cbn [snd env trace].
  repeat (split; [done|]). split; [|done].
  unfold dispose_calls. rewrite He.
  apply elem_of_app. right. apply elem_of_app. left. by left.
Qed.

(** X12.  [hostDidClosePortal] and [hostDidLoseConnection] forget the
    tracked item but leave its destroy observer alive: when the item that
    [replaceActivePaneItem] has installed is destroyed afterwards, [leave]
    still runs and calls [dispose] on the portal. *)
Theorem detached_item_still_leaves s item p :
  active_item_in_pane s →
  observers_tracked s →
  portal (this s) = Some p →
  let installed := exec (replaceActivePaneItem item) s in
  let closed := exec hostDidClosePortal installed in
  let lost := exec hostDidLoseConnection installed in
  let d := {| sub_ref := next_ref (env s); sub_item := item |} in
  (activePaneItem (this closed) = None ∧ observers (env closed) = [d]
   ∧ activePaneItemDestroySubscription (this closed) = Some d
   ∧ trace (env (exec (item_destroy item) closed))
     = trace (env closed) ++ [PaneItem_destroy item; Portal_dispose p])
  ∧ (activePaneItem (this lost) = None ∧ observers (env lost) = [d]
     ∧ activePaneItemDestroySubscription (this lost) = Some d
     ∧ trace (env (exec (item_destroy item) lost))
       = trace (env lost) ++ [PaneItem_destroy item; Portal_dispose p]).
Proof.
  intros Hpane Ht Hp. cbn zeta.
  assert (∃ w', replaced_workspace (this s) (workspace (env s)) item = Some w') as [w' Hw].
  { unfold replaced_workspace.
    destruct (activePaneItem (this s)) as [old|] eqn:Hold; [|by eauto].
    destruct (Hpane old Hold) as [pane ->]. by eauto. }
  assert (Hs1 : exec (replaceActivePaneItem item) s =
            Build_State
              (set_newActivePaneItem None
                 (set_activePaneItemDestroySubscription
                    (Some {| sub_ref := next_ref (env s); sub_item := item |})
                    (set_activePaneItem (Some item) (this s))))
              (Build_Env w' [{| sub_ref := next_ref (env s); sub_item := item |}]
                 (S (next_ref (env s)))
                 (trace (env s) ++ old_subscription_calls (this s)
                    ++ [PaneItem_onDidDestroy item
                          {| sub_ref := next_ref (env s); sub_item := item |}]))).
  { unfold exec. rewrite replaceActivePaneItem_unfold, (tracked_observers_removed s Ht), Hw.
    reflexivity. }
  rewrite Hs1. unfold exec, hostDidClosePortal, hostDidLoseConnection. run_M.
  rewrite !item_destroy_sole_observer by done.
  unfold leave. run_M.
  cbn [portal set_activePaneItem set_newActivePaneItem set_activePaneItemDestroySubscription].
  rewrite Hp. cbn. reassoc. done.
Qed.

End Detaching.

(** ** The rest of the status-bar indicator *)

Module IndicatorElementProperties.
Import PortalStatusBarIndicator IndicatorElement IndicatorStages.

#[local] Arguments calls : simpl never.

Ltac close_iff :=
  split; intros;
  first
    [ lia
    | by eexists
    | match goal with Hs : is_Some None |- _ => by destruct Hs end
    | match goal with
      | Hs : is_Some ?x, Hi : is_Some ?x ↔ _ |- _ => apply Hi in Hs; lia
      end
    | match goal with
      | Hi : is_Some ?x ↔ _ |- is_Some ?x => apply Hi; lia
      end ].

Ltac close_staged n :=
  exists n; rewrite ?IndicatorProperties.calls_app;
  repeat match goal with Hc : calls _ = _ |- _ => rewrite Hc; clear Hc end;
  split; [lia|]; split; [by vm_compute|]; split; [by eauto|];
  cbn; split; [close_iff|]; split; close_iff.

Lemma staged_step i x : staged i → staged (step i x).
Proof.
  unfold staged.
  destruct i as [oc pbm ap pc tt pl su no lg]. cbn [onclick suspended log popoverComponent
    tooltip portalBindingManager].
  destruct oc as [h|].
  - intros (-> & Hc & -> & -> & ->). destruct x as [|k v|k]; cbn.
    + destruct h. cbn. close_staged 0.
    + by destruct k.
    + done.
  - intros (n & Hn & Hc & Hs & Hpc & Htt & Hpbm). destruct x as [|k v|k]; cbn.
    + exists n. rewrite IndicatorProperties.calls_app, Hc. split; [done|].
      change (calls [element_click]) with (@nil Call). by rewrite app_nil_r.
    + destruct Hs as [-> | ->]; [|destruct k; cbn; exists n; by eauto 10].
      destruct n as [|[|[|n]]]; cbn [waiting_after];
        (destruct k as [|k]; cbn;
         [|by (eexists; split; [exact Hn|]; split; [exact Hc|]; split; [by left|done])]).
      * close_staged 1.
      * close_staged 2.
      * close_staged 3.
      * exists (S (S (S n))). eauto 10.
    + exists n. split; [done|]. split; [done|]. split; [|done].
      destruct Hs as [-> | ->]; [|right; by destruct k].
      destruct n as [|[|[|n]]]; cbn [waiting_after];
        destruct k as [|k]; cbn; eauto.
Qed.

Lemma staged_run inputs i : staged i → staged (run inputs i).
Proof.
  revert i. induction inputs as [|x inputs IH]; intros i Hi; [done|].
  cbn. apply IH. by apply staged_step.
Qed.

Lemma calls_after_end n : n ≤ 3 → calls_after n = calls_after 3 → n = 3.
Proof. destruct n as [|[|[|n]]]; intros Hn Heq; try discriminate Heq. lia. Qed.

(** X13.  On an indicator that any clicks, resolutions and rejections
    have reached, the popover component and the tooltip are there
    together, and exactly when the run of the first click has made all
    its calls.  Until then [isPopoverVisible()] and [showPopover()] raise
    a [TypeError] and change nothing; afterwards [showPopover()] clicks
    the element only when the popover is not in the document.  In no
    case does [showPopover()] start the initialisation or touch
    [onclick] or a pending run. *)
Theorem showPopover_never_initialises (loaded : bool) (inputs : list Input)
    (document_contains : Ref → bool) :
  let i := run inputs (constructor loaded) in
  let shown := snd (showPopover document_contains i) in
  (is_Some (popoverComponent i) ↔ calls (log i) = calls_after 3)
  ∧ (is_Some (tooltip i) ↔ is_Some (popoverComponent i))
  ∧ match popoverComponent i with
    | None =>
        (∃ m, isPopoverVisible document_contains i = Throw (TypeError m))
        ∧ (∃ m, showPopover document_contains i = (Throw (TypeError m), i))
    | Some c =>
        isPopoverVisible document_contains i = Return (document_contains c)
        ∧ showPopover document_contains i
          = (Return tt, if document_contains c then i else click i)
    end
  ∧ calls (log shown) = calls (log i)
  ∧ onclick shown = onclick i
  ∧ suspended shown = suspended i.
Proof.
  cbn zeta.
  assert (Hst : staged (run inputs (constructor loaded))).
  { apply staged_run. by repeat split. }
  set (i := run inputs (constructor loaded)) in *.
  unfold showPopover, isPopoverVisible, staged in *.
  destruct (onclick i) as [h|] eqn:Hon.
  - destruct Hst as (Hs & Hc & Hpc & Htt & _). rewrite Hpc, Htt, Hc. cbn.
    repeat split; try done; try (by intros [? ?]); eauto.
  - destruct Hst as (n & Hn & Hc & Hs & Hpc & Htt & _). rewrite Hc.
    split.
    { rewrite Hpc. split; [by intros ->|]. by apply calls_after_end. }
    split; [by rewrite Hpc, Htt|].
    destruct (popoverComponent i) as [c|]; [|by eauto 10].
    destruct (document_contains c); cbn [snd]; [by rewrite Hc, Hon|].
    split; [done|].
    unfold click. cbn [onclick log suspended]. rewrite Hon. cbn.
    rewrite IndicatorProperties.calls_app, Hc.
    change (calls [element_click]) with (@nil Call). by rewrite app_nil_r.
Qed.

Lemma settled_indicator_step i x :
  onclick i = None → suspended i = [] →
  onclick (step i x) = None ∧ suspended (step i x) = []
  ∧ calls (log (step i x)) = calls (log i)
  ∧ popoverComponent (step i x) = popoverComponent i
  ∧ tooltip (step i x) = tooltip i.
Proof.
  destruct i as [oc pbm ap pc tt pl su no lg]. cbn [onclick suspended].
  intros -> ->. destruct x as [|k v|k]; cbn.
  - repeat split. rewrite IndicatorProperties.calls_app.
    change (calls [element_click]) with (@nil Call). by rewrite app_nil_r.
  - by destruct k.
  - by destruct k.
Qed.

(** X14.  An initialisation that has been dropped is never taken up
    again: once the handler is gone and no run is waiting, because a
    promise was rejected or because the run has come to its end, no
    further click, resolution or rejection makes any call of the
    initialisation, sets the handler again or changes the popover
    component or the tooltip. *)
Theorem dropped_initialisation_is_not_retried (i : Indicator) (inputs : list Input) :
  onclick i = None →
  suspended i = [] →
  let i' := run inputs i in
  onclick i' = None
  ∧ suspended i' = []
  ∧ calls (log i') = calls (log i)
  ∧ popoverComponent i' = popoverComponent i
  ∧ tooltip i' = tooltip i.
Proof.
  cbn zeta. revert i. induction inputs as [|x inputs IH]; intros i Hon Hsu; [done|].
  cbn [run fold_left]. fold (run inputs (step i x)).
  destruct (settled_indicator_step i x Hon Hsu) as (Hon' & Hsu' & Hc & Hp & Ht).
  destruct (IH (step i x) Hon' Hsu') as (? & ? & ? & ? & ?).
  repeat split; congruence.
Qed.

Lemma statuses_snoc l x i e :
  statuses (l ++ [x]) i e = snd (updatePortalStatus x i (statuses l i e)).
Proof. unfold statuses. by rewrite fold_left_app. Qed.

Set Warnings "-clear-no-such-hyp".

(** X15.  With the portal binding manager in place, after any sequence
    of status updates on the element that [buildElement] has made, the
    element carries the class 'transmitting' exactly when the last update
    found active portals, and it still carries the classes it was built
    with, 'outdated' and 'initialization-error' exactly when the props
    said so; its icon is untouched. *)
Theorem statuses_keep_the_built_classes (props : Props) (i : Indicator) (l : list bool) :
  is_Some (portalBindingManager i) →
  let e := statuses l i (buildElement props) in
  ("transmitting" ∈ classList e ↔ last l = Some true)
  ∧ "PortalStatusBarIndicator" ∈ classList e
  ∧ "inline-block" ∈ classList e
  ∧ ("outdated" ∈ classList e ↔ isClientOutdated props = true)
  ∧ ("initialization-error" ∈ classList e ↔ initializationError props = true)
  ∧ children e = [{["icon"; "icon-radio-tower"]}].
Proof.
  intros [pbm Hpbm]. cbn zeta.
  induction l as [|x l IH] using rev_ind.
  - cbn. unfold buildElement. destruct props as [[] []]; cbn;
      repeat split; try set_solver.
  - rewrite statuses_snoc, last_snoc. unfold updatePortalStatus. rewrite Hpbm.
    cbn [snd classList children].
    destruct IH as (_ & H1 & H2 & H3 & H4 & H5).
    destruct x.
    + repeat split; try set_solver.
    + repeat split; try set_solver.
Qed.

Lemma updatePortalStatus_without_manager transmitting i e :
  portalBindingManager i = None →
  ∃ m, updatePortalStatus transmitting i e = (Throw (TypeError m), e).
Proof. intros Hn. unfold updatePortalStatus. rewrite Hn. by eexists. Qed.

End IndicatorElementProperties.

(** ** Activations destroy nothing and leak no subscription *)

Section Accounting.
Context {W : Type} `{Workspace W}.
Implicit Types s : State W.

Lemma subscription_live_removed s :
  subscription_live s → old_subscription_removed (this s) (observers (env s)) = [].
Proof.
  unfold subscription_live, old_subscription_removed. intros ->.
  destruct (activePaneItemDestroySubscription (this s)) as [d|]; [|done].
  rewrite filter_cons_False; [done|]. intros Hne. by apply Hne.
Qed.

Lemma replaceActivePaneItem_accounts s item :
  subscription_live s →
  let s' := exec (replaceActivePaneItem item) s in
  subscription_live s'
  ∧ ∃ added, trace (env s') = trace (env s) ++ added
      ∧ count is_destruction added = 0
      ∧ count is_PaneItem_onDidDestroy added + length (observers (env s))
        = count is_Disposable_dispose added + length (observers (env s')).
Proof.
  intros Hl. cbn zeta. unfold exec. rewrite replaceActivePaneItem_unfold.
  rewrite (subscription_live_removed s Hl).
  destruct (replaced_workspace _ _ _) as [w'|]; cbn [snd].
  - split; [done|]. eexists. split; [reflexivity|].
    unfold subscription_live in Hl. rewrite Hl. unfold old_subscription_calls.
    by destruct (activePaneItemDestroySubscription (this s)).
  - split; [done|]. exists []. rewrite app_nil_r. by repeat split.
Qed.

Lemma setActiveEditorProxy_accounts s a :
  subscription_live s →
  let s' := exec (setActiveEditorProxy a) s in
  subscription_live s'
  ∧ ∃ added, trace (env s') = trace (env s) ++ added
      ∧ count is_destruction added = 0
      ∧ count is_PaneItem_onDidDestroy added + length (observers (env s))
        = count is_Disposable_dispose added + length (observers (env s')).
Proof.
  intros Hl. cbn zeta. destruct a as [ep|].
  - unfold exec. rewrite setActiveEditorProxy_unfold.
    destruct (resolve (this s) (next_ref (env s)) ep) as [[[eb b1] n1] calls] eqn:Hr.
    pose proof (resolve_frame _ _ _ _ _ _ _ Hr) as (_ & _ & _ & _ & _ & _ & Hsub & _).
    assert (Hcalls : count is_destruction calls = 0
                     ∧ count is_PaneItem_onDidDestroy calls = 0
                     ∧ count is_Disposable_dispose calls = 0).
    { revert Hr. unfold resolve.
      destruct (editorBindingsByEditorProxy (this s) !! ep_ref ep);
        [by intros [= <- <- <- <-]|].
      by destruct (bufferBindingsByBufferProxy (this s) !! bp_ref (bufferProxy ep));
        intros [= <- <- <- <-]. }
    destruct Hcalls as (Hc1 & Hc2 & Hc3).
    match goal with |- context [replaceActivePaneItem ?i ?s1] =>
      assert (Hl1 : subscription_live s1)
        by (unfold subscription_live in *; cbn; by rewrite Hsub);
      pose proof (replaceActivePaneItem_accounts s1 i Hl1) as (Hl2 & added & Ht & Hd & Hn);
      unfold exec in *; destruct (replaceActivePaneItem i s1) as [[[]|e] s2] end;
      cbn [snd this env trace observers] in *.
    + split; [exact Hl2|].
      exists (calls ++ added ++ [EditorBinding_autoscrollToLastHostSelection eb]).
      rewrite Ht. split; [by rewrite <- !app_assoc|].
      rewrite !count_app, Hc1, Hc2, Hc3, Hd.
      change (count is_destruction [EditorBinding_autoscrollToLastHostSelection eb]) with 0.
      change (count is_PaneItem_onDidDestroy [EditorBinding_autoscrollToLastHostSelection eb])
        with 0.
      change (count is_Disposable_dispose [EditorBinding_autoscrollToLastHostSelection eb])
        with 0.
      split; lia.
    + split; [exact Hl2|].
      exists (calls ++ added). rewrite Ht. split; [by rewrite <- !app_assoc|].
      rewrite !count_app, Hc1, Hc2, Hc3, Hd. split; lia.
  - unfold setActiveEditorProxy. run_M. by apply replaceActivePaneItem_accounts.
Qed.

(** X16.  Activations destroy nothing: after any sequence of
    [setActiveEditorProxy] calls on a binding made where no observer of
    its own is live, no call since its construction is a [destroy] of a
    pane item, a [dispose] of the portal or a [didDispose], so a replaced
    view is only taken out of its pane.  And they leak no subscription:
    every destroy subscription registered has been disposed, but the one
    that is live, which is the stored one. *)
Theorem activations_destroy_nothing (pid : string) (v : Env W) calls :
  observers v = [] →
  let s := activations calls (constructor pid v) in
  let made := drop (length (trace v)) (trace (env s)) in
  count is_destruction made = 0
  ∧ count is_PaneItem_onDidDestroy made
    = count is_Disposable_dispose made + length (observers (env s))
  ∧ subscription_live s.
Proof.
  intros Hv. cbn zeta.
  assert (Hinv : subscription_live (activations calls (constructor pid v))
            ∧ ∃ made, trace (env (activations calls (constructor pid v))) = trace v ++ made
                ∧ count is_destruction made = 0
                ∧ count is_PaneItem_onDidDestroy made
                  = count is_Disposable_dispose made
                    + length (observers (env (activations calls (constructor pid v))))).
  { induction calls as [|a calls IH] using rev_ind.
    - split; [exact Hv|]. exists []. cbn. rewrite Hv, app_nil_r. by repeat split.
    - rewrite activations_snoc. destruct IH as (Hl & made & Ht & Hd & Hn).
      destruct (setActiveEditorProxy_accounts _ a Hl) as (Hl' & added & Ht' & Hd' & Hn').
      split; [exact Hl'|]. exists (made ++ added).
      rewrite Ht', Ht, <- app_assoc, !count_app. repeat split; lia. }
  destruct Hinv as (Hl & made & Ht & Hd & Hn).
  rewrite Ht, drop_app_length. done.
Qed.

End Accounting.

(** ** The further properties at work on concrete inputs *)

Lemma history_one_observer_witness :
  observers ListWorkspace.fresh_env = []
  ∧ length (observers (env (history
              [call_setActiveEditorProxy None; call_hostDidClosePortal;
               call_setActiveEditorProxy (Some editor_proxy_1); call_dispose]
              (constructor "portal-1" ListWorkspace.fresh_env)))) ≤ 1.
Proof.
  split; [reflexivity|].
  exact (proj2 (history_one_observer "portal-1" ListWorkspace.fresh_env _ eq_refl)).
Defined.

Lemma three_activations_one_object_per_reference :
  one_object_per_reference [Some editor_proxy_1; None; Some editor_proxy_2].
Proof.
  intros e1 e2 H1 H2 Href.
  apply elem_of_cons in H1 as [[= ->]|H1];
    [|apply elem_of_cons in H1 as [[=]|H1];
      apply list_elem_of_singleton in H1 as [= ->]];
    (apply elem_of_cons in H2 as [[= ->]|H2];
     [|apply elem_of_cons in H2 as [[=]|H2];
       apply list_elem_of_singleton in H2 as [= ->]]);
    done.
Defined.

Lemma editors_share_the_buffer_witness :
  let calls := [Some editor_proxy_1; None; Some editor_proxy_2] in
  one_object_per_reference calls
  ∧ Some editor_proxy_1 ∈ calls
  ∧ Some editor_proxy_2 ∈ calls
  ∧ bufferProxy editor_proxy_1 = bufferProxy editor_proxy_2
  ∧ ∃ eb1 eb2 bb,
      editorBindingsByEditorProxy (this (activations calls fresh_binding)) !! 11 = Some eb1
      ∧ editorBindingsByEditorProxy (this (activations calls fresh_binding)) !! 12 = Some eb2
      ∧ bufferBindingsByBufferProxy (this (activations calls fresh_binding)) !! 21 = Some bb
      ∧ te_buffer (editor eb1) = buffer bb
      ∧ te_buffer (editor eb2) = buffer bb.
Proof.
  cbn zeta.
  assert (H1 : Some editor_proxy_1 ∈ [Some editor_proxy_1; None; Some editor_proxy_2])
    by (by left).
  assert (H2 : Some editor_proxy_2 ∈ [Some editor_proxy_1; None; Some editor_proxy_2])
    by (right; right; by left).
  split; [exact three_activations_one_object_per_reference|].
  split; [exact H1|]. split; [exact H2|]. split; [reflexivity|].
  exact (editors_share_the_buffer "portal-1" ListWorkspace.fresh_env _ _ _
           three_activations_one_object_per_reference H1 H2 eq_refl).
Defined.

Lemma editor_disposed_then_reactivated_witness :
  let bb := {| bb_ref := 2; buffer := {| tb_ref := 1 |} |} in
  bufferBindingsByBufferProxy (this editor_shown) !! bp_ref (bufferProxy editor_proxy_1)
    = Some bb
  ∧ bufferBindingsByBufferProxy
      (this (exec (setActiveEditorProxy (Some editor_proxy_1))
               (exec (editorBinding_didDispose editor_proxy_1) editor_shown)))
    = bufferBindingsByBufferProxy (this editor_shown).
Proof.
  cbn zeta.
  assert (Hbb : bufferBindingsByBufferProxy (this editor_shown)
                  !! bp_ref (bufferProxy editor_proxy_1)
                = Some {| bb_ref := 2; buffer := {| tb_ref := 1 |} |}) by reflexivity.
  split; [exact Hbb|].
  pose proof (editor_disposed_then_reactivated editor_shown editor_proxy_1 _ Hbb) as Hd.
  cbn zeta in Hd. exact (proj1 (proj2 (proj2 (proj2 (proj2 Hd))))).
Defined.

Lemma editor_shown_tracked : observers_tracked editor_shown.
Proof.
  intros o Ho. vm_compute in Ho. apply list_elem_of_singleton in Ho as ->. reflexivity.
Defined.

Lemma editor_shown_tracks_its_editor :
  activePaneItem (this editor_shown)
  = Some (ItemEditor {| te_ref := 3; te_buffer := {| tb_ref := 1 |}; autoHeight := false |}).
Proof. by vm_compute. Defined.

Lemma detached_editor_survives_dispose_witness :
  observers_tracked editor_shown
  ∧ activePaneItem (this editor_shown)
    = Some (ItemEditor {| te_ref := 3; te_buffer := {| tb_ref := 1 |}; autoHeight := false |})
  ∧ outcome dispose (exec hostDidClosePortal editor_shown) = Return tt.
Proof.
  split; [exact editor_shown_tracked|].
  split; [exact editor_shown_tracks_its_editor|].
  exact (proj1 (detached_editor_survives_dispose editor_shown _
                  editor_shown_tracked editor_shown_tracks_its_editor)).
Defined.

Lemma joined_placeholder_in_pane : active_item_in_pane joined_placeholder.
Proof.
  intros old Hold. vm_compute in Hold. injection Hold as <-.
  exists 0. reflexivity.
Defined.

Lemma joined_placeholder_tracked : observers_tracked joined_placeholder.
Proof.
  intros o Ho. vm_compute in Ho. apply list_elem_of_singleton in Ho as ->. reflexivity.
Defined.

Lemma detached_item_still_leaves_witness :
  let item := ItemEditor {| te_ref := 5; te_buffer := {| tb_ref := 4 |}; autoHeight := false |} in
  active_item_in_pane joined_placeholder
  ∧ observers_tracked joined_placeholder
  ∧ portal (this joined_placeholder) = Some some_portal
  ∧ activePaneItem
      (this (exec hostDidClosePortal (exec (replaceActivePaneItem item) joined_placeholder)))
    = None.
Proof.
  cbn zeta.
  split; [exact joined_placeholder_in_pane|].
  split; [exact joined_placeholder_tracked|].
  split; [reflexivity|].
  exact (proj1 (proj1 (detached_item_still_leaves joined_placeholder _ some_portal
                         joined_placeholder_in_pane joined_placeholder_tracked eq_refl))).
Defined.

Lemma dropped_initialisation_is_not_retried_witness :
  let inputs := [PortalStatusBarIndicator.Click; PortalStatusBarIndicator.Resolve 0 1;
                 PortalStatusBarIndicator.Click] in
  PortalStatusBarIndicator.onclick IndicatorStages.rejected_indicator = None
  ∧ PortalStatusBarIndicator.suspended IndicatorStages.rejected_indicator = []
  ∧ PortalStatusBarIndicator.calls
      (PortalStatusBarIndicator.log
         (PortalStatusBarIndicator.run inputs IndicatorStages.rejected_indicator))
    = PortalStatusBarIndicator.calls
        (PortalStatusBarIndicator.log IndicatorStages.rejected_indicator).
Proof.
  cbn zeta. split; [reflexivity|]. split; [reflexivity|].
  exact (proj1 (proj2 (proj2
           (IndicatorElementProperties.dropped_initialisation_is_not_retried
              IndicatorStages.rejected_indicator _ eq_refl eq_refl)))).
Defined.

Lemma statuses_keep_the_built_classes_witness :
  let props := {| IndicatorElement.isClientOutdated := true;
                  IndicatorElement.initializationError := false |} in
  is_Some (PortalStatusBarIndicator.portalBindingManager IndicatorStages.managed_indicator)
  ∧ "inline-block"
      ∈ IndicatorElement.classList
          (IndicatorElement.statuses [true; false; true] IndicatorStages.managed_indicator
             (IndicatorElement.buildElement props)).
Proof.
  cbn zeta.
  assert (Hm : is_Some (PortalStatusBarIndicator.portalBindingManager
                          IndicatorStages.managed_indicator)) by (by exists 1).
  split; [exact Hm|].
  exact (proj1 (proj2 (proj2
           (IndicatorElementProperties.statuses_keep_the_built_classes _ _ _ Hm)))).
Defined.

Lemma activations_destroy_nothing_witness :
  let calls := [Some editor_proxy_1; None; Some editor_proxy_2; Some editor_proxy_1] in
  observers ListWorkspace.fresh_env = []
  ∧ count is_destruction
      (drop (length (trace ListWorkspace.fresh_env))
         (trace (env (activations calls (constructor "portal-1" ListWorkspace.fresh_env)))))
    = 0.
Proof.
  cbn zeta. split; [reflexivity|].
  exact (proj1 (activations_destroy_nothing "portal-1" ListWorkspace.fresh_env _ eq_refl)).
Defined.
